(** * Transcription request handler (src/main.py): a shallow embedding

    The program is one FastAPI handler, [transcribe_audio_video], and four
    helpers: [convert_to_wav], [download_audio_from_url], [transcribe_audio]
    and [is_valid_url].  The embedding keeps their names.

    - A Python [str] is a Rocq [string] whose characters are the code
      points below 256.
    - The file system is a finite map from resolved paths to nodes (regular
      file or directory), with the POSIX behaviour of [open], [os.remove],
      [os.path.exists] and [os.listdir] that the handler relies on.
    - Exceptions, the file system, standard output and the position of the
      upload stream are threaded through a state-and-exception monad.
    - The audio codec (pydub), the downloader (yt-dlp) and the recogniser
      (speech_recognition) are outside the repository: they are parameters
      of the model. *)

From Stdlib Require Import Ascii String ZArith NArith Lia List Bool.
From stdpp Require Import gmap strings list.
Import ListNotations.
Local Open Scope string_scope.
Local Open Scope list_scope.

(** ** Python strings *)

Definition code (c : ascii) : N := N_of_ascii c.

Definition in_range (lo hi : N) (c : ascii) : bool :=
  ((lo <=? code c) && (code c <=? hi))%N.

Definition is_digit (c : ascii) : bool := in_range 48 57 c.
Definition is_upper (c : ascii) : bool := in_range 65 90 c.
Definition is_lower (c : ascii) : bool := in_range 97 122 c.
Definition is_alpha (c : ascii) : bool := is_upper c || is_lower c.
Definition is_alnum (c : ascii) : bool := is_alpha c || is_digit c.

(** [str.isspace] on one code point below 256: what [\s] matches. *)
Definition is_space (c : ascii) : bool :=
  in_range 9 13 c || in_range 28 32 c
  || (code c =? 133)%N || (code c =? 160)%N.

(** [str.lower] on one code point below 256.  The strings of this
    development are sequences of such code points; what Python does with
    the code points from 256 on is outside it. *)
Definition chr_lower (c : ascii) : ascii :=
  if is_upper c || (in_range 192 222 c && negb (code c =? 215)%N)
  then ascii_of_N (code c + 32) else c.

Fixpoint lower (s : string) : string :=
  match s with
  | EmptyString => EmptyString
  | String c r => String (chr_lower c) (lower r)
  end.

Definition chars (s : string) : list ascii := list_ascii_of_string s.

(** [repr(s)], as [str(e)] shows the file name of an [OSError].  The
    quotes are single unless the string holds a single quote and no double
    one; the quote, the backslash, and what is not printable are escaped. *)
Definition SQUOTE : ascii := ascii_of_N 39.
Definition DQUOTE : ascii := ascii_of_N 34.
Definition BACKSLASH : ascii := ascii_of_N 92.

Definition is_printable (c : ascii) : bool :=
  in_range 32 126 c || (in_range 161 255 c && negb (code c =? 173)%N).

Definition hex_digit (n : N) : ascii :=
  nth (N.to_nat n) (chars "0123456789abcdef") "0"%char.

Definition repr_char (quote c : ascii) : string :=
  if Ascii.eqb c quote || Ascii.eqb c BACKSLASH
  then String BACKSLASH (String c "")
  else if (code c =? 9)%N then String BACKSLASH "t"
  else if (code c =? 10)%N then String BACKSLASH "n"
  else if (code c =? 13)%N then String BACKSLASH "r"
  else if is_printable c then String c ""
  else String BACKSLASH
         (String "x" (String (hex_digit (code c / 16))
                        (String (hex_digit (code c mod 16)) ""))).

Fixpoint repr_body (quote : ascii) (s : string) : string :=
  match s with
  | EmptyString => String quote ""
  | String c r => repr_char quote c +:+ repr_body quote r
  end.

Definition py_repr (s : string) : string :=
  let quote :=
    if existsb (Ascii.eqb SQUOTE) (chars s)
       && negb (existsb (Ascii.eqb DQUOTE) (chars s))
    then DQUOTE else SQUOTE in
  String quote (repr_body quote s).

(** [s.startswith(p)] *)
Definition startswith (s p : string) : bool := String.prefix p s.

(** [s.endswith(p)] *)
Definition endswith (s p : string) : bool :=
  let n := String.length s in
  let k := String.length p in
  (k <=? n)%nat && String.eqb (substring (n - k) k s) p.

(** [s.split(c)]: the pieces between the occurrences of [c]; never empty. *)
Fixpoint split_on (c : ascii) (s : string) : list string :=
  match s with
  | EmptyString => [EmptyString]
  | String a r =>
      if Ascii.eqb a c then EmptyString :: split_on c r
      else match split_on c r with
           | [] => [String a EmptyString]
           | h :: t => String a h :: t
           end
  end.

(** [s.rfind(c)], with Python's -1 for "not found". *)
Fixpoint rfind_from (i : Z) (c : ascii) (s : string) : Z :=
  match s with
  | EmptyString => (-1)%Z
  | String a r =>
      let j := rfind_from (i + 1) c r in
      if (0 <=? j)%Z then j else if Ascii.eqb a c then i else (-1)%Z
  end.

Definition rfind (c : ascii) (s : string) : Z := rfind_from 0 c s.

(** The slices [s[:i]] and [s[i:]] for [0 <= i]. *)
Definition slice_to (i : Z) (s : string) : string := substring 0 (Z.to_nat i) s.
Definition slice_from (i : Z) (s : string) : string :=
  substring (Z.to_nat i) (String.length s - Z.to_nat i) s.

(** Truthiness of a [str] ([if s:]) and of an optional [str]. *)
Definition truthy (s : string) : bool := negb (String.eqb s "").
Definition truthy_opt (o : option string) : bool :=
  match o with Some s => truthy s | None => false end.

(** ** posixpath *)

(** [os.path.join(a, b)] *)
Definition os_path_join (a b : string) : string :=
  if startswith b "/" then b
  else if negb (truthy a) || endswith a "/" then a +:+ b
  else a +:+ "/" +:+ b.

(** [os.path.basename(p)]: [p[p.rfind('/') + 1:]] *)
Definition os_path_basename (p : string) : string :=
  slice_from (rfind "/" p + 1) p.

(** The loop of [genericpath._splitext] that skips leading dots: is there a
    character other than the dot in [p[i:dot]]? *)
Definition only_dots (s : string) : bool :=
  forallb (fun c => Ascii.eqb c ".") (chars s).

(** [os.path.splitext(p)] *)
Definition os_path_splitext (p : string) : string * string :=
  let sepIndex := rfind "/" p in
  let dotIndex := rfind "." p in
  if (sepIndex <? dotIndex)%Z then
    let filenameIndex := (sepIndex + 1)%Z in
    if only_dots (substring (Z.to_nat filenameIndex)
                            (Z.to_nat (dotIndex - filenameIndex)) p)
    then (p, "")
    else (slice_to dotIndex p, slice_from dotIndex p)
  else (p, "").

(** ** Regular expressions, as the [re] module runs them *)

(** The fragment of the pattern language that [is_valid_url] uses.  [Cls]
    is a one-character atom (a literal, a set or an escape such as [\d]);
    [Rep r lo hi] is [r{lo,hi}]. *)
Inductive regex : Type :=
| Eps
| Cls (p : ascii -> bool)
| Cat (a b : regex)
| Alt (a b : regex)
| Star (a : regex)
| Rep (a : regex) (lo hi : nat).

(** [r?], [r+] and [r{n,}] *)
Definition Opt (r : regex) : regex := Rep r 0 1.
Definition Plus (r : regex) : regex := Cat r (Star r).
Definition AtLeast (n : nat) (r : regex) : regex := Cat (Rep r n n) (Star r).

(** Greedy bounded repetition: try one more round of [ma] first, then give
    up the rest when the lower bound is already met. *)
Fixpoint rep_loop (ma : list ascii -> (list ascii -> bool) -> bool)
    (lo hi : nat) (s : list ascii) (k : list ascii -> bool) : bool :=
  match hi with
  | O => match lo with O => k s | S _ => false end
  | S hi' =>
      if ma s (fun s' => rep_loop ma (pred lo) hi' s' k) then true
      else match lo with O => k s | S _ => false end
  end.

(** Greedy unbounded repetition.  A round that consumes nothing is not
    repeated, so [length s] rounds are enough. *)
Fixpoint star_loop (ma : list ascii -> (list ascii -> bool) -> bool)
    (fuel : nat) (s : list ascii) (k : list ascii -> bool) : bool :=
  match fuel with
  | O => k s
  | S fuel' =>
      if ma s (fun s' =>
                 if (length s' <? length s)%nat then star_loop ma fuel' s' k
                 else false)
      then true else k s
  end.

(** Backtracking matcher: [run r s k] tries every way in which [r] matches
    a prefix of [s], in the order of the [re] engine, and succeeds when the
    continuation [k] accepts the rest. *)
Fixpoint run (r : regex) (s : list ascii) (k : list ascii -> bool) : bool :=
  match r with
  | Eps => k s
  | Cls p => match s with
             | c :: s' => if p c then k s' else false
             | [] => false
             end
  | Cat a b => run a s (fun s' => run b s' k)
  | Alt a b => if run a s k then true else run b s k
  | Star a => star_loop (run a) (length s) s k
  | Rep a lo hi => rep_loop (run a) lo hi s k
  end.

(** [$] without [re.MULTILINE]: the end of the string, or just before a
    newline that ends the string. *)
Definition at_dollar (s : list ascii) : bool :=
  match s with
  | [] => true
  | [c] => (code c =? 10)%N
  | _ => false
  end.

(** [re.match(pattern, s) is not None] for a pattern [^ r $]. *)
Definition re_match (r : regex) (s : string) : bool :=
  run r (chars s) at_dollar.

(** Atoms under [re.IGNORECASE]. *)
Definition chr_i (x : ascii) : regex :=
  Cls (fun c => Ascii.eqb (chr_lower c) (chr_lower x)).
Definition chr_of (x : ascii) : regex := Cls (fun c => Ascii.eqb c x).

Fixpoint lit_i (s : string) : regex :=
  match s with
  | EmptyString => Eps
  | String x r => Cat (chr_i x) (lit_i r)
  end.

Definition cls_AZ : regex := Cls is_alpha.                      (* [A-Z] *)
Definition cls_AZ09 : regex := Cls is_alnum.                    (* [A-Z0-9] *)
Definition cls_AZ09h : regex :=
  Cls (fun c => is_alnum c || Ascii.eqb c "-").                 (* [A-Z0-9-] *)
Definition cls_d : regex := Cls is_digit.                       (* \d *)
Definition cls_S : regex := Cls (fun c => negb (is_space c)).   (* \S *)
Definition cls_slash_q : regex :=
  Cls (fun c => Ascii.eqb c "/" || Ascii.eqb c "?").            (* [/?] *)
Definition dot : regex := chr_of ".".                           (* \. *)

(** ** is_valid_url *)

(** [(?:http|ftp)s?://] *)
Definition re_scheme : regex :=
  Cat (Alt (lit_i "http") (lit_i "ftp")) (Cat (Opt (chr_i "s")) (lit_i "://")).

(** [(?:[A-Z0-9](?:[A-Z0-9-]{0,61}[A-Z0-9])?\.)+] *)
Definition re_label_dot : regex :=
  Cat cls_AZ09 (Cat (Opt (Cat (Rep cls_AZ09h 0 61) cls_AZ09)) dot).

(** [(?:[A-Z]{2,6}\.?|[A-Z0-9-]{2,}\.?)] *)
Definition re_tld : regex :=
  Alt (Cat (Rep cls_AZ 2 6) (Opt dot)) (Cat (AtLeast 2 cls_AZ09h) (Opt dot)).

Definition re_domain : regex := Cat (Plus re_label_dot) re_tld.

(** [\d{1,3}\.\d{1,3}\.\d{1,3}\.\d{1,3}] *)
Definition re_ip : regex :=
  let d := Rep cls_d 1 3 in
  Cat d (Cat dot (Cat d (Cat dot (Cat d (Cat dot d))))).

Definition re_host : regex := Alt re_domain (Alt (lit_i "localhost") re_ip).

(** [(?::\d+)?] *)
Definition re_port : regex := Opt (Cat (chr_of ":") (Plus cls_d)).

(** [(?:/?|[/?]\S+)] *)
Definition re_tail : regex :=
  Alt (Opt (chr_of "/")) (Cat cls_slash_q (Plus cls_S)).

Definition url_regex : regex :=
  Cat re_scheme (Cat re_host (Cat re_port re_tail)).

Definition is_valid_url (url : string) : bool := re_match url_regex url.

(** ** What a pattern denotes *)

(** The words of a pattern, independently of any matching order. *)
Fixpoint lang (r : regex) (s : list ascii) : Prop :=
  match r with
  | Eps => s = []
  | Cls p => exists c, s = [c] /\ p c = true
  | Cat a b => exists s1 s2, s = s1 ++ s2 /\ lang a s1 /\ lang b s2
  | Alt a b => lang a s \/ lang b s
  | Star a => exists ss, s = concat ss /\ Forall (lang a) ss
  | Rep a lo hi =>
      exists ss, s = concat ss /\ Forall (lang a) ss /\ lo <= length ss <= hi
  end.

(** ** The URL shape, in the words of the specification

    "An HTTP/HTTPS/FTP(S) URL shape with a valid-looking host (domain-label
    syntax, localhost, or dotted-quad IPv4), optional port, optional
    path/query.  Case-insensitive." *)

(** [s] is [x] up to the case of its letters ([x] is in lower case). *)
Definition same_word (s : list ascii) (x : string) : Prop :=
  map chr_lower s = chars x.

Definition all_of (p : ascii -> bool) (s : list ascii) : Prop :=
  forallb p s = true.

Definition is_host_char (c : ascii) : bool := is_alnum c || Ascii.eqb c "-".

Definition is_scheme (s : list ascii) : Prop :=
  same_word s "http" \/ same_word s "https" \/
  same_word s "ftp" \/ same_word s "ftps".

(** A domain label: 1 to 63 letters, digits and hyphens, with no hyphen at
    either end. *)
Definition is_label (l : list ascii) : Prop :=
  1 <= length l <= 63 /\ all_of is_host_char l /\
  (forall c, head l = Some c -> is_alnum c = true) /\
  (forall c, last l = Some c -> is_alnum c = true).

(** The last part of a domain name: 2 to 6 letters, or at least two
    letters, digits and hyphens. *)
Definition is_tld (t : list ascii) : Prop :=
  (2 <= length t <= 6 /\ all_of is_alpha t) \/
  (2 <= length t /\ all_of is_host_char t).

(** Labels, each followed by a dot, then the last part and at most one
    final dot. *)
Definition is_domain (h : list ascii) : Prop :=
  exists labels tld final,
    h = concat (map (fun l => l ++ ["."%char]) labels) ++ tld ++ final /\
    labels <> [] /\ Forall is_label labels /\ is_tld tld /\
    (final = [] \/ final = ["."%char]).

Definition is_octet (x : list ascii) : Prop :=
  1 <= length x <= 3 /\ all_of is_digit x.

Definition is_ipv4 (h : list ascii) : Prop :=
  exists a b c d,
    h = a ++ "."%char :: b ++ "."%char :: c ++ "."%char :: d /\
    is_octet a /\ is_octet b /\ is_octet c /\ is_octet d.

Definition is_host (h : list ascii) : Prop :=
  is_domain h \/ same_word h "localhost" \/ is_ipv4 h.

Definition is_port (p : list ascii) : Prop :=
  p = [] \/ exists ds, p = ":"%char :: ds /\ ds <> [] /\ all_of is_digit ds.

Definition is_tail (t : list ascii) : Prop :=
  t = [] \/ t = ["/"%char] \/
  exists c rest,
    t = c :: rest /\ (c = "/"%char \/ c = "?"%char) /\ rest <> [] /\
    all_of (fun x => negb (is_space x)) rest.

Definition url_shape (s : list ascii) : Prop :=
  exists scheme host port tail,
    s = scheme ++ chars "://" ++ host ++ port ++ tail /\
    is_scheme scheme /\ is_host host /\ is_port port /\ is_tail tail.

(** A line feed, the character that [$] tolerates at the end. *)
Definition LF : ascii := ascii_of_N 10.

(** ** Exceptions *)

(** The subclasses of [Exception] that the program raises or names in an
    [except] clause, and those that the calls on paths raise ([OSError]
    stands for an [OSError] of no more specific class); [LibraryError]
    stands for any other one.  What is not an [Exception]
    ([KeyboardInterrupt], [SystemExit]) is not modelled. *)
Inductive exn : Type :=
| HTTPException (status_code : Z) (detail : string)
| UnknownValueError (msg : string)
| RequestError (msg : string)
| FileNotFoundError (msg : string)
| IsADirectoryError (msg : string)
| NotADirectoryError (msg : string)
| OSError (msg : string)
| ValueError (msg : string)
| TypeError (msg : string)
| LibraryError (msg : string).

(** [str(e)], as the f-strings [{e}] print it. *)
Definition exn_str (e : exn) : string :=
  match e with
  | HTTPException _ d => d
  | UnknownValueError m | RequestError m | FileNotFoundError m
  | IsADirectoryError m | NotADirectoryError m | OSError m | ValueError m
  | TypeError m | LibraryError m => m
  end.

Inductive result (A : Type) : Type :=
| Ok (a : A)
| Raise (e : exn).
Arguments Ok {A} a.
Arguments Raise {A} e.

(** ** The file system *)

Inductive node : Type :=
| File (data : list Byte.byte)
| Dir.

(** Nodes are keyed by their resolved path: the names from the root down.
    The root is a directory and has no entry of its own. *)
Record fsys : Type := MkFs {
  nodes : gmap (list string) node;
  cwd : list string
}.

Definition node_at (f : fsys) (p : list string) : option node :=
  match p with
  | [] => Some Dir
  | _ :: _ => nodes f !! p
  end.

Definition is_dir (f : fsys) (p : list string) : bool :=
  match node_at f p with Some Dir => true | _ => false end.

(** Path resolution: every component is looked up in a directory. *)
Fixpoint walk (f : fsys) (cur : list string) (comps : list string)
    : option (list string) :=
  match comps with
  | [] => Some cur
  | c :: rest =>
      if is_dir f cur then
        if String.eqb c "" || String.eqb c "." then walk f cur rest
        else if String.eqb c ".." then walk f (removelast cur) rest
        else walk f (cur ++ [c]) rest
      else None
  end.

Definition resolve (f : fsys) (p : string) : option (list string) :=
  if truthy p
  then walk f (if startswith p "/" then [] else cwd f) (split_on "/" p)
  else None.

(** The node a path string names, if any. *)
Definition lookup_path (f : fsys) (p : string) : option node :=
  match resolve f p with
  | Some q => node_at f q
  | None => None
  end.

Definition set_nodes (f : fsys) (m : gmap (list string) node) : fsys :=
  MkFs m (cwd f).

(** The names in a directory.  [os.listdir] promises no order; the model
    lists the names in the order of the finite map. *)
Definition entries (f : fsys) (d : list string) : list string :=
  omap (fun kv : list string * node =>
          match fst kv with
          | [] => None
          | _ :: _ =>
              if decide (removelast (fst kv) = d)
              then Some (List.last (fst kv) "") else None
          end)
       (map_to_list (nodes f)).

(** *** Paths that the system refuses *)

(** CPython refuses a path that holds a NUL character before it makes any
    system call.  Linux refuses a path of [PATH_MAX] bytes or more and a
    name of more than [NAME_MAX] bytes; the bytes are those of the UTF-8
    encoding, one for a code point below 128 and two for one from 128 to
    255.  A file system holds no such name, and [walk] does not look for
    one: the limits are checked where a file is created or truncated, and
    where the error of a failed call is chosen. *)
Definition NAME_MAX : nat := 255.
Definition PATH_MAX : nat := 4096.

Fixpoint utf8_length (s : string) : nat :=
  match s with
  | EmptyString => 0
  | String c r => (if (code c <? 128)%N then 1 else 2) + utf8_length r
  end.

Definition has_nul (s : string) : bool :=
  existsb (fun c => (code c =? 0)%N) (chars s).

Definition name_fits (c : string) : bool :=
  (utf8_length c <=? NAME_MAX)%nat.

(** A path under which a file can be created or truncated. *)
Definition path_fits (p : string) : bool :=
  negb (has_nul p) && (utf8_length p <? PATH_MAX)%nat
  && forallb name_fits (split_on "/" p).

Inductive errno : Type := ENOENT | ENOTDIR | EISDIR | ENAMETOOLONG.

(** The [OSError] subclass that CPython gives an error number, with the
    text of [str(e)]. *)
Definition os_error (n : errno) (p : string) : exn :=
  match n with
  | ENOENT =>
      FileNotFoundError ("[Errno 2] No such file or directory: " +:+ py_repr p)
  | ENOTDIR =>
      NotADirectoryError ("[Errno 20] Not a directory: " +:+ py_repr p)
  | EISDIR =>
      IsADirectoryError ("[Errno 21] Is a directory: " +:+ py_repr p)
  | ENAMETOOLONG =>
      OSError ("[Errno 36] File name too long: " +:+ py_repr p)
  end.

(** Why a call on a path fails when the path names no node: the walk of
    [walk], with the error of the step that fails.  A component that is
    looked up in a missing directory gives [ENOENT], one that is looked up
    in a regular file [ENOTDIR], a name that is too long [ENAMETOOLONG].
    A call that creates ([creat]: [open] for writing) fails with [EISDIR]
    on a last name that is followed by a slash. *)
Definition slashes_follow (rest : list string) : bool :=
  match rest with
  | [] => false
  | _ :: _ => forallb (String.eqb "") rest
  end.

Fixpoint walk_errno (creat : bool) (f : fsys) (cur comps : list string)
    : errno :=
  match comps with
  | [] => ENOENT
  | c :: rest =>
      match node_at f cur with
      | Some Dir =>
          if String.eqb c "" || String.eqb c "." then walk_errno creat f cur rest
          else if String.eqb c ".."
          then walk_errno creat f (removelast cur) rest
          else if creat && slashes_follow rest then EISDIR
          else if negb (name_fits c) then ENAMETOOLONG
          else walk_errno creat f (cur ++ [c]) rest
      | Some (File _) => ENOTDIR
      | None => ENOENT
      end
  end.

Definition path_error (creat : bool) (f : fsys) (p : string) : exn :=
  if has_nul p then ValueError "embedded null byte"
  else if (PATH_MAX <=? utf8_length p)%nat then os_error ENAMETOOLONG p
  else os_error
         (walk_errno creat f (if startswith p "/" then [] else cwd f)
                     (split_on "/" p)) p.

(** ** The state of a run *)

(** What a run does that can be observed from outside: lines on standard
    output, [os.remove] calls, and requests to the downloader. *)
Inductive event : Type :=
| Print (line : string)
| Remove (path : string)
| Extract (url : string).

(** [upload_pos] is the read position of the request's [file.file]. *)
Record world : Type := MkWorld {
  fs : fsys;
  trace : list event;
  upload_pos : nat
}.

Definition set_fs (w : world) (f : fsys) : world :=
  MkWorld f (trace w) (upload_pos w).
Definition emit (w : world) (e : event) : world :=
  MkWorld (fs w) (trace w ++ [e]) (upload_pos w).
Definition set_pos (w : world) (n : nat) : world :=
  MkWorld (fs w) (trace w) n.

(** ** The monad: state and exceptions *)

Definition M (S A : Type) : Type := S -> result A * S.

Definition ret {S A : Type} (a : A) : M S A := fun s => (Ok a, s).
Definition raise {S A : Type} (e : exn) : M S A := fun s => (Raise e, s).

Definition bind {S A B : Type} (m : M S A) (k : A -> M S B) : M S B :=
  fun s =>
    match m s with
    | (Ok a, s') => k a s'
    | (Raise e, s') => (Raise e, s')
    end.

(** [try: m except Exception as e: h e] *)
Definition try_except {S A : Type} (m : M S A) (h : exn -> M S A) : M S A :=
  fun s =>
    match m s with
    | (Ok a, s') => (Ok a, s')
    | (Raise e, s') => h e s'
    end.

(** [try: m finally: fin] where [fin] ends in [return]: whatever [m] did,
    the outcome is that of [fin]. *)
Definition finally_return {S A B : Type} (m : M S A) (fin : M S B) : M S B :=
  fun s => fin (snd (m s)).

Definition lift_result {S A : Type} (r : result A) : M S A := fun s => (r, s).

Declare Scope py_scope.
Delimit Scope py_scope with py.
Notation "'let*' x ':=' m 'in' k" := (bind m (fun x => k))
  (at level 10, x name, m at level 100, k at level 200) : py_scope.
Notation "m ;; k" := (bind m (fun _ => k))
  (at level 100, k at level 200, right associativity) : py_scope.
Local Open Scope py_scope.

(** [print(line)] *)
Definition print (line : string) : M world unit :=
  fun w => (Ok tt, emit w (Print line)).

(** [os.path.exists(p)] *)
Definition os_path_exists (p : string) : M world bool :=
  fun w => (Ok (bool_decide (is_Some (lookup_path (fs w) p))), w).

(** [os.remove(p)]: unlinks a regular file, fails on anything else. *)
Definition os_remove (p : string) : M world unit :=
  fun w =>
    let w1 := emit w (Remove p) in
    match resolve (fs w) p with
    | Some q =>
        match node_at (fs w) q with
        | Some (File _) =>
            (Ok tt, set_fs w1 (set_nodes (fs w) (delete q (nodes (fs w)))))
        | Some Dir =>
            (Raise (IsADirectoryError
                      ("[Errno 21] Is a directory: " +:+ py_repr p)), w1)
        | None => (Raise (path_error false (fs w) p), w1)
        end
    | None => (Raise (path_error false (fs w) p), w1)
    end.

(** [open(p, "wb")]: creates the file or truncates it; the result is the
    resolved path, which stands for the open file object.  It succeeds on
    a path that names a regular file or nothing, in a directory, and that
    fits the limits on names; it fails on a directory, and otherwise with
    the error of [path_error].  Permissions, quotas and symbolic links are
    not modelled. *)
Definition open_wb (p : string) : M world (list string) :=
  fun w =>
    match resolve (fs w) p with
    | Some q =>
        match node_at (fs w) q with
        | Some Dir =>
            (Raise (IsADirectoryError
                      ("[Errno 21] Is a directory: " +:+ py_repr p)), w)
        | _ =>
            if is_dir (fs w) (removelast q) && path_fits p
            then (Ok q, set_fs w (set_nodes (fs w)
                                    (<[q := File []]> (nodes (fs w)))))
            else (Raise (path_error true (fs w) p), w)
        end
    | None => (Raise (path_error true (fs w) p), w)
    end.

(** [buffer.write(data)] on an open file object: appends. *)
Definition write_bytes (q : list string) (data : list Byte.byte)
    : M world unit :=
  fun w =>
    let old := match nodes (fs w) !! q with
               | Some (File d) => d
               | _ => []
               end in
    (Ok tt, set_fs w (set_nodes (fs w)
                        (<[q := File (old ++ data)]> (nodes (fs w))))).

(** Reading a whole file, as the libraries do when given a path. *)
Definition read_file (p : string) : M world (list Byte.byte) :=
  fun w =>
    match lookup_path (fs w) p with
    | Some (File d) => (Ok d, w)
    | Some Dir =>
        (Raise (IsADirectoryError
                  ("[Errno 21] Is a directory: " +:+ py_repr p)), w)
    | None => (Raise (path_error false (fs w) p), w)
    end.

(** [os.listdir(p)] *)
Definition os_listdir (p : string) : M world (list string) :=
  fun w =>
    match resolve (fs w) p with
    | Some q =>
        match node_at (fs w) q with
        | Some Dir => (Ok (entries (fs w) q), w)
        | Some (File _) => (Raise (os_error ENOTDIR p), w)
        | None => (Raise (path_error false (fs w) p), w)
        end
    | None => (Raise (path_error false (fs w) p), w)
    end.

(** ** The program *)

Definition UPLOAD_DIR : string := "temp_uploads".

(** Module start-up: [if not os.path.exists(UPLOAD_DIR):
    os.makedirs(UPLOAD_DIR)], for a process started in directory [d]. *)
Definition fs_at_startup (d : list string) (m : gmap (list string) node)
    : fsys :=
  let f := MkFs m d in
  match lookup_path f UPLOAD_DIR with
  | Some _ => f
  | None => MkFs (<[d ++ [UPLOAD_DIR] := Dir]> m) d
  end.

(** The request: FastAPI's [UploadFile] (its [filename] is optional) and
    the [video_url] form field. *)
Record upload : Type := MkUpload {
  filename : option string;
  content : list Byte.byte
}.

Record request : Type := MkRequest {
  file : option upload;
  video_url : option string
}.

(** [templates.TemplateResponse("index.html", {...})]: the status code is
    the default one, the context carries the two values. *)
Record response : Type := MkResponse {
  status_code : Z;
  ctx_transcribed_text : string;
  ctx_error_message : option string
}.

(** The handler's local variables. *)
Record frame : Type := MkFrame {
  transcribed_text : string;
  error_message : option string;
  temp_file_path : option string;
  audio_file_path : option string
}.

Definition frame0 : frame := MkFrame "" None None None.

(** Statements of the handler run on its frame and the world. *)
Definition lift {A : Type} (m : M world A) : M (frame * world) A :=
  fun s =>
    match m (snd s) with
    | (r, w') => (r, (fst s, w'))
    end.

Definition get_frame : M (frame * world) frame := fun s => (Ok (fst s), s).
Definition update (g : frame -> frame) : M (frame * world) unit :=
  fun s => (Ok tt, (g (fst s), snd s)).

Definition set_transcribed_text (t : string) (l : frame) : frame :=
  MkFrame t (error_message l) (temp_file_path l) (audio_file_path l).
Definition set_error_message (e : option string) (l : frame) : frame :=
  MkFrame (transcribed_text l) e (temp_file_path l) (audio_file_path l).
Definition set_temp_file_path (p : option string) (l : frame) : frame :=
  MkFrame (transcribed_text l) (error_message l) p (audio_file_path l).
Definition set_audio_file_path (p : option string) (l : frame) : frame :=
  MkFrame (transcribed_text l) (error_message l) (temp_file_path l) p.

(** [f"{x}"] for a value that is a string or [None]. *)
Definition fmt (o : option string) : string :=
  match o with Some s => s | None => "None" end.

(** [os.path.join(UPLOAD_DIR, name)] where [name] may be [None]. *)
Definition join_upload_dir {S : Type} (name : option string) : M S string :=
  match name with
  | Some n => ret (os_path_join UPLOAD_DIR n)
  | None =>
      raise (TypeError
               "join() argument must be str, bytes, or os.PathLike object, not 'NoneType'")
  end.

(** [shutil.copyfileobj(file.file, buffer)]: reads the stream from its
    current position to its end. *)
Definition copyfileobj (u : upload) (buffer : list string) : M world unit :=
  fun w =>
    let data := skipn (upload_pos w) (content u) in
    write_bytes buffer data (set_pos w (length (content u))).

(** [with open(path, "wb") as buffer: shutil.copyfileobj(file.file, buffer)] *)
Definition save_upload (u : upload) (path : string) : M world unit :=
  let* buffer := open_wb path in
  copyfileobj u buffer.

Definition audio_formats : list string :=
  [".mp3"; ".wav"; ".ogg"; ".flac"; ".aac"].
Definition video_formats : list string :=
  [".mp4"; ".mov"; ".avi"; ".mkv"].

(** [x in xs] for strings *)
Definition str_in (x : string) (xs : list string) : bool :=
  existsb (String.eqb x) xs.

(** [if not path: raise HTTPException(status_code=400, detail=...)] *)
Definition require_path {S : Type} (path : option string) (detail : string)
    : M S string :=
  match path with
  | Some p => if truthy p then ret p else raise (HTTPException 400 detail)
  | None => raise (HTTPException 400 detail)
  end.

(** [os.path.splitext(file_path)[1].lower()] *)
Definition file_extension (file_path : string) : string :=
  lower (snd (os_path_splitext file_path)).

(** [os.path.join(UPLOAD_DIR,
    f"{os.path.basename(file_path).split('.')[0]}.wav")] *)
Definition output_wav_path (file_path : string) : string :=
  os_path_join UPLOAD_DIR
    (hd "" (split_on "." (os_path_basename file_path)) +:+ ".wav").

(** The upload block of the handler, which the source has twice in a row:
    [temp_file_path = os.path.join(UPLOAD_DIR, file.filename)], then the
    copy of [file.file] into that path. *)
Definition save_once (f : upload) : M (frame * world) string :=
  let* p := join_upload_dir (filename f) in
  update (set_temp_file_path (Some p));;
  lift (save_upload f p);;
  ret p.

Definition persist_upload (f : upload) : M (frame * world) string :=
  save_once f;;
  save_once f.

Section Program.

(** *** The libraries outside the repository *)

(** pydub: a decoded [AudioSegment]; [AudioSegment.from_file] on the
    bytes of a file with a format name; the WAV bytes that [export]
    writes. *)
Variable audio : Type.
Variable decode : string -> list Byte.byte -> result audio.
Variable encode_wav : audio -> list Byte.byte.

(** yt-dlp, with the options of [ydl_opts]: [extract_info(url,
    download=True)] changes the file system and returns the metadata or
    raises; [prepare_filename] names the file it downloaded. *)
Variable info : Type.
Variable ydl_extract_info : string -> fsys -> fsys * result info.
Variable ydl_prepare_filename : info -> string.

(** speech_recognition: [AudioFile] with [Recognizer.record] on the bytes
    of a file, and [Recognizer.recognize_google]. *)
Variable audio_data : Type.
Variable sr_record : list Byte.byte -> result audio_data.
Variable recognize_google : audio_data -> result string.

(** [AudioSegment.from_file(path, format=fmt)] *)
Definition from_file (path format : string) : M world audio :=
  let* data := read_file path in
  lift_result (decode format data).

(** [audio.export(path, format="wav")] *)
Definition export (a : audio) (path : string) : M world unit :=
  let* out_f := open_wb path in
  write_bytes out_f (encode_wav a).

Definition convert_to_wav (file_path : string) : M world (option string) :=
  print ("Attempting to convert " +:+ file_path +:+ " to WAV.");;
  try_except
    (let file_extension := file_extension file_path in
     let output_wav_path := output_wav_path file_path in
     let* a :=
       (if str_in file_extension audio_formats then
          let* a := from_file file_path (slice_from 1 file_extension) in
          ret (Some a)
        else if str_in file_extension video_formats then
          let* a := from_file file_path (slice_from 1 file_extension) in
          ret (Some a)
        else
          print ("Unsupported file format: " +:+ file_extension);;
          ret None) in
     match a with
     | None => ret None
     | Some a =>
         export a output_wav_path;;
         print ("Successfully converted " +:+ file_path +:+ " to "
                +:+ output_wav_path);;
         ret (Some output_wav_path)
     end)
    (fun e =>
       print ("Error converting file " +:+ file_path +:+ " to WAV: "
              +:+ exn_str e);;
       ret None).

(** [ydl.extract_info(url, download=True)] *)
Definition extract_info (url : string) : M world info :=
  fun w =>
    let w1 := emit w (Extract url) in
    match ydl_extract_info url (fs w) with
    | (f', r) => (r, set_fs w1 f')
    end.

(** The loop over [os.listdir(UPLOAD_DIR)]: the first name that starts
    with [stem] and ends in [.wav]. *)
Fixpoint find_wav (stem : string) (names : list string) : option string :=
  match names with
  | [] => None
  | f :: rest =>
      if startswith f stem && endswith f ".wav"
      then Some (os_path_join UPLOAD_DIR f)
      else find_wav stem rest
  end.

Definition download_audio_from_url (url : string)
    : M world (option string) :=
  print ("Starting audio download from URL: " +:+ url);;
  try_except
    (let* i := extract_info url in
     let downloaded_file := ydl_prepare_filename i in
     print ("yt-dlp downloaded file: " +:+ downloaded_file);;
     let base_name := fst (os_path_splitext downloaded_file) in
     let* names := os_listdir UPLOAD_DIR in
     let wav_output_path := find_wav (os_path_basename base_name) names in
     let* present :=
       match wav_output_path with
       | Some p => if truthy p then os_path_exists p else ret false
       | None => ret false
       end in
     let* wav_output_path :=
       (if negb present then
          print ("Direct WAV not found, attempting conversion from: "
                 +:+ downloaded_file);;
          let* converted := convert_to_wav downloaded_file in
          let* there := os_path_exists downloaded_file in
          (if there then os_remove downloaded_file else ret tt);;
          ret converted
        else ret wav_output_path) in
     print ("Final WAV audio path after download/conversion: "
            +:+ fmt wav_output_path);;
     ret wav_output_path)
    (fun e =>
       print ("Error downloading audio from URL " +:+ url +:+ ": "
              +:+ exn_str e);;
       ret None).

Definition NOT_UNDERSTOOD : string :=
  "Google Speech Recognition could not understand audio".

(** [with sr.AudioFile(path) as source: audio = r.record(source)], then
    [r.recognize_google(audio)] *)
Definition recognition (audio_file_path : string) : M world string :=
  let* data := read_file audio_file_path in
  let* a := lift_result (sr_record data) in
  lift_result (recognize_google a).

Definition transcribe_audio (audio_file_path : string) : M world string :=
  print ("Attempting to transcribe audio from: " +:+ audio_file_path);;
  try_except
    (let* transcription := recognition audio_file_path in
     print ("Google Speech Recognition result: " +:+ transcription);;
     ret transcription)
    (fun e =>
       match e with
       | UnknownValueError _ =>
           print NOT_UNDERSTOOD;;
           ret NOT_UNDERSTOOD
       | RequestError _ =>
           let m := "Could not request results from Google Speech Recognition service; "
                    +:+ exn_str e in
           print m;;
           ret m
       | _ =>
           print ("Error during transcription for " +:+ audio_file_path
                  +:+ ": " +:+ exn_str e);;
           ret ("Error during transcription: " +:+ exn_str e)
       end).

(** The [if file: ... elif video_url: ... else: ...] block of the handler:
    it leaves the path of the audio to transcribe. *)
Definition acquire (req : request) : M (frame * world) string :=
  match file req with
  | Some f =>
      let* p := persist_upload f in
      lift (print ("Uploaded file saved to: " +:+ p));;
      let* a := lift (convert_to_wav p) in
      update (set_audio_file_path a);;
      let* a := require_path a "Could not convert file to audio." in
      lift (print ("Converted audio file path: " +:+ a));;
      ret a
  | None =>
      match video_url req with
      | Some u =>
          if truthy u then
            (if negb (is_valid_url u)
             then raise (HTTPException 400 "Invalid URL provided.")
             else ret tt);;
            lift (print ("Attempting to download audio from URL: " +:+ u));;
            let* a := lift (download_audio_from_url u) in
            update (set_audio_file_path a);;
            let* a := require_path a
                        "Could not download audio from the provided URL." in
            lift (print ("Downloaded audio file path from URL: " +:+ a));;
            ret a
          else raise (HTTPException 400 "No file or video URL provided.")
      | None => raise (HTTPException 400 "No file or video URL provided.")
      end
  end.

(** The body of the [try]. *)
Definition pipeline (req : request) : M (frame * world) unit :=
  let* a := acquire req in
  lift (print ("Starting transcription for: " +:+ a));;
  let* t := lift (transcribe_audio a) in
  update (set_transcribed_text t);;
  lift (print ("Transcription result: " +:+ t)).

(** The two [except] clauses. *)
Definition on_exception (e : exn) : M (frame * world) unit :=
  match e with
  | HTTPException _ detail =>
      update (set_error_message (Some detail));;
      lift (print ("HTTPException: " +:+ detail))
  | _ =>
      update (set_error_message
                (Some ("An unexpected error occurred: " +:+ exn_str e)));;
      lift (print ("Unexpected error: " +:+ exn_str e))
  end.

(** [if path and os.path.exists(path): os.remove(path); print(...)] *)
Definition cleanup_path (label : string) (path : option string)
    : M world unit :=
  match path with
  | Some p =>
      if truthy p then
        let* there := os_path_exists p in
        if there then
          os_remove p;;
          print (label +:+ p)
        else ret tt
      else ret tt
  | None => ret tt
  end.

(** The [finally] block. *)
Definition cleanup_and_respond : M (frame * world) response :=
  let* l := get_frame in
  lift (cleanup_path "Cleaned up temporary file: " (temp_file_path l));;
  lift (cleanup_path "Cleaned up audio file: " (audio_file_path l));;
  let* l := get_frame in
  ret (MkResponse 200 (transcribed_text l) (error_message l)).

(** [POST /transcribe] *)
Definition transcribe_audio_video (req : request) : M world response :=
  fun w =>
    match finally_return (try_except (pipeline req) on_exception)
                         cleanup_and_respond (frame0, w) with
    | (r, (_, w')) => (r, w')
    end.

End Program.

(** ** Stand-ins for the libraries, used to run the model *)

Module Demo.

(** A codec that rejects empty input and otherwise keeps the bytes. *)
Definition decode (format : string) (d : list Byte.byte)
    : result (list Byte.byte) :=
  match d with
  | [] => Raise (LibraryError "Decoding failed")
  | _ :: _ => Ok d
  end.
Definition encode_wav (a : list Byte.byte) : list Byte.byte := a.

(** A downloader that leaves [temp_uploads/vid.webm] and nothing else. *)
Definition ydl_extract_info (url : string) (f : fsys)
    : fsys * result string :=
  (set_nodes f (<[cwd f ++ ["temp_uploads"; "vid.webm"]
                  := File [Byte.x01]]> (nodes f)),
   Ok "temp_uploads/vid.webm").
Definition ydl_prepare_filename (i : string) : string := i.

(** A downloader whose post-processor leaves [temp_uploads/vid.wav]. *)
Definition ydl_extract_wav (url : string) (f : fsys)
    : fsys * result string :=
  (set_nodes f (<[cwd f ++ ["temp_uploads"; "vid.wav"]
                  := File [Byte.x01]]> (nodes f)),
   Ok "temp_uploads/vid.webm").

Definition sr_record (d : list Byte.byte) : result (list Byte.byte) := Ok d.
Definition recognize_google (d : list Byte.byte) : result string :=
  Ok "hello".

(** A fresh process started in the root directory. *)
Definition fs0 : fsys := fs_at_startup [] ∅.
Definition w0 : world := MkWorld fs0 [] 0.

(** The same, with an MP3 whose name has two dots in the temp directory. *)
Definition w_song : world :=
  MkWorld (set_nodes fs0 (<[["temp_uploads"; "my.song.mp3"]
                            := File [Byte.x01]]> (nodes fs0))) [] 0.


Definition handler : request -> M world response :=
  transcribe_audio_video (list Byte.byte) decode encode_wav
    string ydl_extract_info ydl_prepare_filename
    (list Byte.byte) sr_record recognize_google.

Definition handler_wav : request -> M world response :=
  transcribe_audio_video (list Byte.byte) decode encode_wav
    string ydl_extract_wav ydl_prepare_filename
    (list Byte.byte) sr_record recognize_google.

(** A downloader that fails and leaves a partial file behind. *)
Definition ydl_extract_fail (url : string) (f : fsys)
    : fsys * result string :=
  (set_nodes f (<[cwd f ++ ["temp_uploads"; "vid.webm.part"]
                  := File [Byte.x01]]> (nodes f)),
   Raise (LibraryError "ERROR: unable to download video data")).

Definition handler_fail : request -> M world response :=
  transcribe_audio_video (list Byte.byte) decode encode_wav
    string ydl_extract_fail ydl_prepare_filename
    (list Byte.byte) sr_record recognize_google.

End Demo.

(** ** Notions used to state the properties *)

(** Two file systems with the same directories: they resolve every path
    alike. *)
Definition same_dirs (f g : fsys) : Prop :=
  cwd f = cwd g /\ forall p, is_dir f p = is_dir g p.


(** The string that stands for the text when the attempt of
    [transcribe_audio] ends in the exception [e]: what its three [except]
    clauses return. *)
Definition failure_message (e : exn) : string :=
  match e with
  | UnknownValueError _ =>
      "Google Speech Recognition could not understand audio"
  | RequestError m =>
      "Could not request results from Google Speech Recognition service; "
      +:+ m
  | _ => "Error during transcription: " +:+ exn_str e
  end.

(** What [\S] matches. *)
Definition not_space (c : ascii) : bool := negb (is_space c).

(** The paths of the [os.remove] calls among some events, in order. *)
Definition removed_paths (evs : list event) : list string :=
  omap (fun e => match e with Remove p => Some p | _ => None end) evs.

(** Every one-character atom of a pattern gives the same answer on a
    character and on its lower-case form. *)
Fixpoint case_blind (r : regex) : Prop :=
  match r with
  | Eps => True
  | Cls p => forall c, p (chr_lower c) = p c
  | Cat a b | Alt a b => case_blind a /\ case_blind b
  | Star a | Rep a _ _ => case_blind a
  end.

(** No occurrence of the character [c] in [s]. *)
Definition free_of (c : ascii) (s : string) : Prop :=
  forallb (fun x => negb (Ascii.eqb x c)) (chars s) = true.

(** * Properties *)

(** ** The matcher finds exactly the words of the pattern *)

Lemma if_true_or (a b : bool) :
  (if a then true else b) = true <-> a = true \/ b = true.
Proof. destruct a, b; intuition congruence. Qed.

Section Loops.

Variable ma : list ascii -> (list ascii -> bool) -> bool.
Variable L : list ascii -> Prop.
Hypothesis ma_spec :
  forall s k, ma s k = true <->
              exists s1 s2, s = s1 ++ s2 /\ L s1 /\ k s2 = true.

Lemma rep_loop_spec hi :
  forall lo s k,
    rep_loop ma lo hi s k = true <->
    exists ss s2, s = concat ss ++ s2 /\ Forall L ss /\
                  lo <= length ss <= hi /\ k s2 = true.
Proof.
  induction hi as [|hi IH]; intros lo s k; simpl.
  - destruct lo; split.
    + intros Hk. exists [], s. repeat split; auto.
    + intros (ss & s2 & -> & _ & Hlen & Hk).
      destruct ss; simpl in *; [exact Hk|lia].
    + discriminate.
    + intros (ss & s2 & _ & _ & Hlen & _). lia.
  - rewrite if_true_or, ma_spec. split.
    + intros [(s1 & s2 & -> & H1 & Hr)|Hk].
      * apply IH in Hr as (ss & s3 & -> & Hall & Hlen & Hk).
        exists (s1 :: ss), s3. simpl. rewrite <- app_assoc.
        repeat split; auto; lia.
      * destruct lo; [|discriminate]. exists [], s.
        repeat split; auto; simpl; lia.
    + intros (ss & s2 & -> & Hall & Hlen & Hk). destruct ss as [|s1 ss].
      * right. destruct lo; [exact Hk|simpl in Hlen; lia].
      * left. inversion Hall as [|? ? H1 Hrest]; subst.
        exists s1, (concat ss ++ s2). simpl. rewrite <- app_assoc.
        repeat split; auto. apply IH. exists ss, s2.
        simpl in Hlen. repeat split; auto; lia.
Qed.

(** Pieces that are empty add nothing to a concatenation. *)
Lemma concat_drop_empty (ss : list (list ascii)) :
  Forall L ss ->
  exists ss', concat ss' = concat ss /\ Forall L ss' /\
              Forall (fun x => x <> []) ss'.
Proof.
  induction 1 as [|x ss Hx Hss (ss' & Hc & Hl & Hn)].
  - exists []. repeat split; constructor.
  - destruct x as [|c x].
    + exists ss'. simpl. repeat split; assumption.
    + exists ((c :: x) :: ss'). simpl. rewrite Hc.
      repeat split; constructor; auto; discriminate.
Qed.

Lemma star_loop_sound fuel :
  forall s k,
    star_loop ma fuel s k = true ->
    exists ss s2, s = concat ss ++ s2 /\ Forall L ss /\ k s2 = true.
Proof.
  induction fuel as [|fuel IH]; intros s k; simpl.
  - intros Hk. exists [], s. repeat split; auto.
  - rewrite if_true_or, ma_spec.
    intros [(s1 & s2 & -> & H1 & Hr)|Hk].
    + destruct (length s2 <? length (s1 ++ s2))%nat; [|discriminate].
      apply IH in Hr as (ss & s3 & -> & Hall & Hk).
      exists (s1 :: ss), s3. simpl. rewrite <- app_assoc.
      repeat split; auto.
    + exists [], s. repeat split; auto.
Qed.

Lemma star_loop_complete fuel :
  forall ss s2 k,
    Forall L ss -> Forall (fun x => x <> []) ss ->
    length (concat ss ++ s2) <= fuel ->
    k s2 = true ->
    star_loop ma fuel (concat ss ++ s2) k = true.
Proof.
  induction fuel as [|fuel IH]; intros ss s2 k Hall Hne Hlen Hk.
  - destruct (concat ss ++ s2) eqn:E; [|simpl in Hlen; lia].
    apply app_eq_nil in E as [_ ->]. exact Hk.
  - simpl. rewrite if_true_or, ma_spec.
    destruct ss as [|s1 ss]; [right; exact Hk|left].
    inversion Hall as [|? ? H1 Hrest]; subst.
    inversion Hne as [|? ? N1 Nrest]; subst.
    exists s1, (concat ss ++ s2). simpl. rewrite <- app_assoc.
    repeat split; auto.
    assert (Hl : length (concat ss ++ s2) < length (s1 ++ concat ss ++ s2)).
    { rewrite (length_app s1). destruct s1; [contradiction|simpl; lia]. }
    apply Nat.ltb_lt in Hl as Hl'. rewrite Hl'.
    apply IH; auto. simpl in Hlen. rewrite <- app_assoc in Hlen. lia.
Qed.

Lemma star_loop_spec s k :
  star_loop ma (length s) s k = true <->
  exists ss s2, s = concat ss ++ s2 /\ Forall L ss /\ k s2 = true.
Proof.
  split; [apply star_loop_sound|].
  intros (ss & s2 & -> & Hall & Hk).
  destruct (concat_drop_empty ss Hall) as (ss' & Hc & Hall' & Hne).
  rewrite <- Hc. apply star_loop_complete; auto.
Qed.

End Loops.

(** [run r s k] succeeds exactly when [s] splits into a word of [r] and a
    rest that [k] accepts. *)
Lemma run_spec r :
  forall s k,
    run r s k = true <->
    exists s1 s2, s = s1 ++ s2 /\ lang r s1 /\ k s2 = true.
Proof.
  induction r as [|p|a IHa b IHb|a IHa b IHb|a IHa|a IHa lo hi];
    intros s k; simpl.
  - split.
    + intros Hk. exists [], s. auto.
    + intros (s1 & s2 & -> & -> & Hk). exact Hk.
  - destruct s as [|c s'].
    + split; [discriminate|].
      intros (s1 & s2 & E & (c & -> & _) & _). discriminate.
    + split.
      * destruct (p c) eqn:Hp; [|discriminate]. intros Hk.
        exists [c], s'. eauto.
      * intros (s1 & s2 & E & (c0 & -> & Hp) & Hk).
        injection E as -> ->. rewrite Hp. exact Hk.
  - rewrite IHa. split.
    + intros (s1 & s2 & -> & Ha & Hb).
      apply IHb in Hb as (s3 & s4 & -> & Hb & Hk).
      exists (s1 ++ s3), s4. rewrite <- app_assoc. eauto 10.
    + intros (s12 & s4 & -> & (s1 & s3 & -> & Ha & Hb) & Hk).
      exists s1, (s3 ++ s4). rewrite <- app_assoc.
      repeat split; auto. apply IHb. eauto.
  - rewrite if_true_or, IHa, IHb. split.
    + intros [(s1 & s2 & -> & H & Hk)|(s1 & s2 & -> & H & Hk)]; eauto 10.
    + intros (s1 & s2 & -> & [H|H] & Hk); eauto 10.
  - rewrite (star_loop_spec (run a) (lang a) IHa). split.
    + intros (ss & s2 & -> & Hall & Hk). eauto 10.
    + intros (s1 & s2 & -> & (ss & -> & Hall) & Hk). eauto 10.
  - rewrite (rep_loop_spec (run a) (lang a) IHa). split.
    + intros (ss & s2 & -> & Hall & Hlen & Hk). eauto 10.
    + intros (s1 & s2 & -> & (ss & -> & Hall & Hlen) & Hk). eauto 10.
Qed.

(** ** The words of the pieces of the URL pattern *)

Lemma lang_opt r s : lang (Opt r) s <-> s = [] \/ lang r s.
Proof.
  unfold Opt; simpl. split.
  - intros (ss & -> & Hall & Hlen).
    destruct ss as [|x [|y ss]]; simpl in *; [left; reflexivity| |lia].
    right. rewrite app_nil_r. inversion Hall; assumption.
  - intros [->|H].
    + exists []. repeat split; auto.
    + exists [s]. simpl. rewrite app_nil_r. repeat split; auto.
Qed.

Lemma lang_cat a b s :
  lang (Cat a b) s <-> exists s1 s2, s = s1 ++ s2 /\ lang a s1 /\ lang b s2.
Proof. reflexivity. Qed.

Lemma lang_chr_of x s : lang (chr_of x) s <-> s = [x].
Proof.
  simpl. split.
  - intros (c & -> & H). apply Ascii.eqb_eq in H. subst. reflexivity.
  - intros ->. exists x. split; [reflexivity|apply Ascii.eqb_refl].
Qed.

(** Pieces that are single characters of a set. *)
Lemma cls_pieces p (ss : list (list ascii)) :
  Forall (lang (Cls p)) ss ->
  length (concat ss) = length ss /\ all_of p (concat ss).
Proof.
  unfold all_of. induction 1 as [|x ss (c & -> & Hc) _ [IHl IHp]]; simpl.
  - split; reflexivity.
  - rewrite Hc, IHl, IHp. split; reflexivity.
Qed.

Lemma cls_split p (s : list ascii) :
  all_of p s ->
  exists ss, s = concat ss /\ Forall (lang (Cls p)) ss /\ length ss = length s.
Proof.
  unfold all_of. induction s as [|c s IH]; simpl.
  - intros _. exists []. repeat split; constructor.
  - intros H. apply andb_true_iff in H as [Hc Hs].
    destruct (IH Hs) as (ss & E & Hall & Hlen).
    exists ([c] :: ss). simpl. rewrite <- E, Hlen. repeat split.
    constructor; [exists c; auto|exact Hall].
Qed.

Lemma lang_rep_cls p lo hi s :
  lang (Rep (Cls p) lo hi) s <-> lo <= length s <= hi /\ all_of p s.
Proof.
  split.
  - intros (ss & -> & Hall & Hlen).
    destruct (cls_pieces p ss Hall) as [Hl Hp]. rewrite Hl. auto.
  - intros [Hlen Hp]. destruct (cls_split p s Hp) as (ss & E & Hall & Hl).
    exists ss. rewrite Hl. auto.
Qed.

Lemma lang_star_cls p s : lang (Star (Cls p)) s <-> all_of p s.
Proof.
  split.
  - intros (ss & -> & Hall). apply (cls_pieces p ss Hall).
  - intros Hp. destruct (cls_split p s Hp) as (ss & E & Hall & _). exists ss. auto.
Qed.

Lemma all_of_app p s1 s2 : all_of p (s1 ++ s2) <-> all_of p s1 /\ all_of p s2.
Proof. unfold all_of. rewrite forallb_app. apply andb_true_iff. Qed.

Lemma lang_plus_cls p s : lang (Plus (Cls p)) s <-> s <> [] /\ all_of p s.
Proof.
  unfold Plus. rewrite lang_cat. split.
  - intros (s1 & s2 & -> & (c & -> & Hc) & Hs).
    apply lang_star_cls in Hs. split; [discriminate|].
    unfold all_of in *. simpl. rewrite Hc. exact Hs.
  - intros [Hne Hp]. destruct s as [|c s]; [contradiction|].
    unfold all_of in Hp. simpl in Hp. apply andb_true_iff in Hp as [Hc Hs].
    exists [c], s. repeat split.
    + exists c. auto.
    + apply lang_star_cls. exact Hs.
Qed.

Lemma lang_atleast_cls p n s :
  lang (AtLeast n (Cls p)) s <-> n <= length s /\ all_of p s.
Proof.
  unfold AtLeast. rewrite lang_cat. split.
  - intros (s1 & s2 & -> & H1 & H2).
    apply lang_rep_cls in H1 as [Hl H1]. apply lang_star_cls in H2.
    rewrite length_app. split; [lia|]. apply all_of_app. auto.
  - intros [Hl Hp]. rewrite <- (firstn_skipn n s) in Hp.
    apply all_of_app in Hp as [H1 H2].
    exists (firstn n s), (skipn n s). split; [symmetry; apply firstn_skipn|].
    split.
    + apply lang_rep_cls. rewrite length_firstn. split; [lia|exact H1].
    + apply lang_star_cls. exact H2.
Qed.

Lemma lang_lit_i x s :
  lang (lit_i x) s <-> map chr_lower s = map chr_lower (chars x).
Proof.
  revert s. induction x as [|c x IH]; intros s; simpl.
  - split; [intros ->; reflexivity|].
    destruct s; [reflexivity|discriminate].
  - split.
    + intros (s1 & s2 & -> & (c0 & -> & Hc) & Hx).
      apply Ascii.eqb_eq in Hc. apply IH in Hx. simpl. congruence.
    + destruct s as [|c0 s]; [discriminate|]. simpl. intros [= Hc Hx].
      exists [c0], s. repeat split.
      * exists c0. split; [reflexivity|]. rewrite Hc. apply Ascii.eqb_refl.
      * apply IH. exact Hx.
Qed.

(** Only the colon, the slash and the dot lower to themselves. *)
Lemma chr_lower_punct c x :
  x = ":"%char \/ x = "/"%char -> chr_lower c = x -> c = x.
Proof.
  intros [->| ->];
    destruct c as [[] [] [] [] [] [] [] []]; vm_compute; congruence.
Qed.


Lemma lang_scheme s :
  lang re_scheme s <-> exists sch, s = sch ++ chars "://" /\ is_scheme sch.
Proof.
  unfold re_scheme, is_scheme, same_word. split.
  - intros (s1 & r & -> & H1 & s2 & s3 & -> & H2 & H3).
    apply lang_lit_i in H3. apply lang_opt in H2.
    assert (s3 = chars "://") as ->.
    { do 4 (destruct s3 as [|? s3]; try discriminate).
      injection H3 as Ha Hb Hc.
      apply chr_lower_punct in Ha, Hb, Hc; auto. subst. reflexivity. }
    exists (s1 ++ s2). rewrite <- app_assoc. split; [reflexivity|].
    rewrite map_app.
    destruct H1 as [H1|H1]; apply lang_lit_i in H1; rewrite H1;
      (destruct H2 as [->|(c & -> & Hc)];
       [|apply Ascii.eqb_eq in Hc; simpl; rewrite Hc]); auto.
  - intros (sch & -> & H).
    assert (Hsep : lang (lit_i "://") (chars "://"))
      by (apply lang_lit_i; reflexivity).
    destruct H as [H|[H|[H|H]]].
    + exists sch, (chars "://"). split; [reflexivity|]. split.
      * left. apply lang_lit_i. exact H.
      * exists [], (chars "://"). split; [reflexivity|].
        split; [apply lang_opt; auto|exact Hsep].
    + do 6 (destruct sch as [|? sch]; try discriminate).
      injection H as Ha Hb Hc Hd He.
      exists [a; a0; a1; a2], (a3 :: chars "://").
      split; [reflexivity|]. split.
      * left. apply lang_lit_i. cbn [map]. rewrite Ha, Hb, Hc, Hd.
        reflexivity.
      * exists [a3], (chars "://"). split; [reflexivity|]. split; [|exact Hsep].
        apply lang_opt. right. exists a3. split; [reflexivity|].
        rewrite He. reflexivity.
    + exists sch, (chars "://"). split; [reflexivity|]. split.
      * right. apply lang_lit_i. exact H.
      * exists [], (chars "://"). split; [reflexivity|].
        split; [apply lang_opt; auto|exact Hsep].
    + do 5 (destruct sch as [|? sch]; try discriminate).
      injection H as Ha Hb Hc Hd.
      exists [a; a0; a1], (a2 :: chars "://").
      split; [reflexivity|]. split.
      * right. apply lang_lit_i. cbn [map]. rewrite Ha, Hb, Hc.
        reflexivity.
      * exists [a2], (chars "://"). split; [reflexivity|]. split; [|exact Hsep].
        apply lang_opt. right. exists a2. split; [reflexivity|].
        rewrite Hd. reflexivity.
Qed.

Lemma snoc_or_nil {A} (l : list A) : l = [] \/ exists m e, l = m ++ [e].
Proof. induction l using rev_ind; [left; reflexivity|right; eauto]. Qed.

Lemma alnum_host_char c : is_alnum c = true -> is_host_char c = true.
Proof. unfold is_host_char. intros ->. reflexivity. Qed.

Lemma lang_label_dot s :
  lang re_label_dot s <-> exists l, s = l ++ ["."%char] /\ is_label l.
Proof.
  unfold re_label_dot, is_label. split.
  - intros (s1 & r & -> & (c & -> & Hc) & o & d & -> & Ho & Hd).
    apply lang_chr_of in Hd as ->. apply lang_opt in Ho.
    exists (c :: o). split; [reflexivity|].
    destruct Ho as [->|(m & e' & -> & Hm & (e & -> & He))].
    + simpl. repeat split; try lia.
      * unfold all_of. simpl. rewrite (alnum_host_char c Hc). reflexivity.
      * intros ? [= <-]. exact Hc.
      * intros ? [= <-]. exact Hc.
    + apply lang_rep_cls in Hm as [Hlen Hm].
      repeat split.
      * simpl. lia.
      * simpl. rewrite length_app. simpl. lia.
      * change (c :: m ++ [e]) with ([c] ++ m ++ [e]).
        apply all_of_app. split.
        { unfold all_of. simpl. rewrite (alnum_host_char c Hc). reflexivity. }
        apply all_of_app. split; [exact Hm|].
        unfold all_of. simpl. rewrite (alnum_host_char e He). reflexivity.
      * intros ? [= <-]. exact Hc.
      * rewrite app_comm_cons, last_snoc. intros ? [= <-]. exact He.
  - intros (l & -> & (Hlen & Hall & Hhd & Hlast)).
    destruct l as [|c o]; [simpl in Hlen; lia|].
    exists [c], (o ++ ["."%char]). split; [reflexivity|]. split.
    { exists c. split; [reflexivity|]. apply Hhd. reflexivity. }
    exists o, ["."%char]. split; [reflexivity|].
    split; [|apply lang_chr_of; reflexivity].
    apply lang_opt. destruct (snoc_or_nil o) as [->|(m & e & ->)];
      [left; reflexivity|right].
    exists m, [e]. split; [reflexivity|]. split.
    + apply lang_rep_cls. split.
      * simpl in Hlen. rewrite length_app in Hlen. simpl in Hlen. lia.
      * change (c :: m ++ [e]) with ([c] ++ m ++ [e]) in Hall.
        apply all_of_app in Hall as [_ Hall].
        apply all_of_app in Hall as [Hall _]. exact Hall.
    + exists e. split; [reflexivity|]. apply Hlast.
      rewrite app_comm_cons, last_snoc. reflexivity.
Qed.

Lemma label_pieces (ss : list (list ascii)) :
  Forall (lang re_label_dot) ss <->
  exists labels, ss = map (fun l => l ++ ["."%char]) labels /\
                 Forall is_label labels.
Proof.
  split.
  - induction 1 as [|x ss Hx _ (labels & -> & Hall)].
    + exists []. split; [reflexivity|constructor].
    + apply lang_label_dot in Hx as (l & -> & Hl).
      exists (l :: labels). split; [reflexivity|]. constructor; assumption.
  - intros (labels & -> & Hall). induction Hall as [|l labels Hl _ IH].
    + constructor.
    + simpl. constructor; [|exact IH]. apply lang_label_dot. eauto.
Qed.

Lemma lang_labels s :
  lang (Plus re_label_dot) s <->
  exists labels, labels <> [] /\ Forall is_label labels /\
                 s = concat (map (fun l => l ++ ["."%char]) labels).
Proof.
  unfold Plus. rewrite lang_cat. split.
  - intros (s1 & s2 & -> & H1 & ss & -> & Hss).
    assert (Hall : Forall (lang re_label_dot) (s1 :: ss))
      by (constructor; assumption).
    apply label_pieces in Hall as (labels & E & Hl).
    destruct labels as [|l labels]; [discriminate|].
    exists (l :: labels). split; [discriminate|]. split; [exact Hl|].
    rewrite <- E. reflexivity.
  - intros (labels & Hne & Hl & ->).
    destruct labels as [|l labels]; [contradiction|].
    assert (Hall : Forall (lang re_label_dot)
                     (map (fun l => l ++ ["."%char]) (l :: labels)))
      by (apply label_pieces; eauto).
    simpl in Hall. inversion Hall as [|? ? H1 Hrest]; subst.
    exists (l ++ ["."%char]), (concat (map (fun l => l ++ ["."%char]) labels)).
    split; [reflexivity|]. split; [exact H1|]. eexists. eauto.
Qed.

Lemma lang_final_dot f : lang (Opt dot) f <-> f = [] \/ f = ["."%char].
Proof.
  rewrite lang_opt. unfold dot. rewrite lang_chr_of. reflexivity.
Qed.

Lemma lang_tld s :
  lang re_tld s <->
  exists t f, s = t ++ f /\ is_tld t /\ (f = [] \/ f = ["."%char]).
Proof.
  unfold re_tld, is_tld. split.
  - intros [(t & f & -> & Ht & Hf)|(t & f & -> & Ht & Hf)];
      apply lang_final_dot in Hf; exists t, f; (split; [reflexivity|]);
      (split; [|exact Hf]).
    + left. apply lang_rep_cls in Ht. exact Ht.
    + right. apply lang_atleast_cls in Ht. exact Ht.
  - intros (t & f & -> & [Ht|Ht] & Hf); apply lang_final_dot in Hf.
    + left. exists t, f. split; [reflexivity|].
      split; [apply lang_rep_cls; exact Ht|exact Hf].
    + right. exists t, f. split; [reflexivity|].
      split; [apply lang_atleast_cls; exact Ht|exact Hf].
Qed.

Lemma lang_domain s : lang re_domain s <-> is_domain s.
Proof.
  unfold re_domain, is_domain. rewrite lang_cat. split.
  - intros (s1 & s2 & -> & H1 & H2).
    apply lang_labels in H1 as (labels & Hne & Hl & ->).
    apply lang_tld in H2 as (t & f & -> & Ht & Hf).
    exists labels, t, f. auto.
  - intros (labels & t & f & -> & Hne & Hl & Ht & Hf).
    eexists _, _. split; [reflexivity|]. split.
    + apply lang_labels. eauto.
    + apply lang_tld. eauto.
Qed.


Lemma lang_octet x : lang (Rep cls_d 1 3) x <-> is_octet x.
Proof. apply lang_rep_cls. Qed.

Lemma lang_ip s : lang re_ip s <-> is_ipv4 s.
Proof.
  unfold re_ip, is_ipv4. split.
  - intros (a & r1 & -> & Ha & d1 & r2 & -> & Hd1 & b & r3 & -> & Hb
            & d2 & r4 & -> & Hd2 & c & r5 & -> & Hc & d3 & d & -> & Hd3 & Hd).
    apply lang_chr_of in Hd1 as ->, Hd2 as ->, Hd3 as ->.
    apply lang_octet in Ha, Hb, Hc, Hd.
    exists a, b, c, d. auto.
  - intros (a & b & c & d & -> & Ha & Hb & Hc & Hd).
    apply lang_octet in Ha, Hb, Hc, Hd.
    exists a, ("."%char :: b ++ "."%char :: c ++ "."%char :: d).
    split; [reflexivity|]. split; [exact Ha|].
    exists ["."%char], (b ++ "."%char :: c ++ "."%char :: d).
    split; [reflexivity|]. split; [apply lang_chr_of; reflexivity|].
    exists b, ("."%char :: c ++ "."%char :: d).
    split; [reflexivity|]. split; [exact Hb|].
    exists ["."%char], (c ++ "."%char :: d).
    split; [reflexivity|]. split; [apply lang_chr_of; reflexivity|].
    exists c, ("."%char :: d).
    split; [reflexivity|]. split; [exact Hc|].
    exists ["."%char], d.
    split; [reflexivity|]. split; [apply lang_chr_of; reflexivity|exact Hd].
Qed.

Lemma lang_host s : lang re_host s <-> is_host s.
Proof.
  unfold re_host, is_host, same_word.
  change (lang (Alt re_domain (Alt (lit_i "localhost") re_ip)) s)
    with (lang re_domain s \/ lang (lit_i "localhost") s \/ lang re_ip s).
  rewrite lang_domain, lang_ip, lang_lit_i. reflexivity.
Qed.

Lemma lang_port s : lang re_port s <-> is_port s.
Proof.
  unfold re_port, is_port. rewrite lang_opt, lang_cat. split.
  - intros [->|(s1 & ds & -> & H1 & Hd)]; [left; reflexivity|right].
    apply lang_chr_of in H1 as ->. apply lang_plus_cls in Hd as [Hne Hd].
    exists ds. auto.
  - intros [->|(ds & -> & Hne & Hd)]; [left; reflexivity|right].
    exists [":"%char], ds. split; [reflexivity|].
    split; [apply lang_chr_of; reflexivity|].
    apply lang_plus_cls. auto.
Qed.

Lemma lang_tail s : lang re_tail s <-> is_tail s.
Proof.
  unfold re_tail, is_tail.
  change (lang (Alt (Opt (chr_of "/")) (Cat cls_slash_q (Plus cls_S))) s)
    with (lang (Opt (chr_of "/")) s \/ lang (Cat cls_slash_q (Plus cls_S)) s).
  rewrite lang_opt, lang_chr_of, lang_cat. split.
  - intros [[->| ->]|(s1 & rest & -> & (c & -> & Hc) & Hr)]; auto.
    right; right. apply lang_plus_cls in Hr as [Hne Hr].
    exists c, rest. split; [reflexivity|]. split; [|auto].
    apply orb_true_iff in Hc as [Hc|Hc]; apply Ascii.eqb_eq in Hc; auto.
  - intros [->|[->|(c & rest & -> & Hc & Hne & Hr)]]; auto.
    right. exists [c], rest. split; [reflexivity|]. split.
    + exists c. split; [reflexivity|].
      destruct Hc as [->| ->]; reflexivity.
    + apply lang_plus_cls. auto.
Qed.

(** The words of the whole pattern are the strings of the URL shape. *)
Lemma lang_url_regex s : lang url_regex s <-> url_shape s.
Proof.
  unfold url_regex, url_shape. split.
  - intros (a & r1 & -> & Ha & h & r2 & -> & Hh & p & t & -> & Hp & Ht).
    apply lang_scheme in Ha as (sch & -> & Hs).
    apply lang_host in Hh. apply lang_port in Hp. apply lang_tail in Ht.
    exists sch, h, p, t. rewrite <- app_assoc. auto.
  - intros (sch & h & p & t & -> & Hs & Hh & Hp & Ht).
    exists (sch ++ chars "://"), (h ++ p ++ t).
    split; [rewrite <- app_assoc; reflexivity|].
    split; [apply lang_scheme; eauto|].
    exists h, (p ++ t). split; [reflexivity|].
    split; [apply lang_host; exact Hh|].
    exists p, t. split; [reflexivity|].
    split; [apply lang_port; exact Hp|apply lang_tail; exact Ht].
Qed.

Lemma at_dollar_spec s : at_dollar s = true <-> s = [] \/ s = [LF].
Proof.
  unfold at_dollar, LF. destruct s as [|c [|c' s]].
  - intuition.
  - split.
    + intros H. apply N.eqb_eq in H. right. unfold code in H.
      rewrite <- H, ascii_N_embedding. reflexivity.
    + intros [H|[= ->]]; [discriminate|]. reflexivity.
  - split; [discriminate|]. intros [H|H]; discriminate.
Qed.

(** What [is_valid_url] accepts: the strings of the URL shape, and those
    strings followed by one line feed. *)
Lemma is_valid_url_spec (u : string) :
  is_valid_url u = true <->
  url_shape (chars u) \/ exists s, chars u = s ++ [LF] /\ url_shape s.
Proof.
  unfold is_valid_url, re_match. rewrite run_spec. split.
  - intros (s1 & s2 & E & H1 & H2).
    apply lang_url_regex in H1. apply at_dollar_spec in H2 as [->| ->].
    + left. rewrite E, app_nil_r. exact H1.
    + right. eauto.
  - intros [H|(s & E & H)].
    + exists (chars u), []. rewrite app_nil_r.
      repeat split. apply lang_url_regex. exact H.
    + exists s, [LF]. repeat split; [exact E|apply lang_url_regex; exact H].
Qed.

(** No string of the URL shape holds a white-space character. *)
Lemma all_of_impl (p q : ascii -> bool) s :
  (forall c, p c = true -> q c = true) -> all_of p s -> all_of q s.
Proof.
  unfold all_of. intros Hpq. induction s as [|c s IH]; simpl; [auto|].
  intros H. apply andb_true_iff in H as [Hc Hs].
  rewrite (Hpq c Hc), (IH Hs). reflexivity.
Qed.

Lemma host_char_not_space c : is_host_char c = true -> not_space c = true.
Proof.
  destruct c as [[] [] [] [] [] [] [] []]; vm_compute; congruence.
Qed.

Lemma alpha_host_char c : is_alpha c = true -> is_host_char c = true.
Proof. unfold is_host_char, is_alnum. intros ->. reflexivity. Qed.

Lemma digit_host_char c : is_digit c = true -> is_host_char c = true.
Proof.
  unfold is_host_char, is_alnum. intros ->.
  rewrite orb_true_r. reflexivity.
Qed.

Lemma lower_not_space c : not_space (chr_lower c) = true -> not_space c = true.
Proof.
  destruct c as [[] [] [] [] [] [] [] []]; vm_compute; congruence.
Qed.

Lemma same_word_not_space s x :
  all_of not_space (chars x) -> same_word s x -> all_of not_space s.
Proof.
  unfold same_word, all_of. generalize (chars x) as l. clear x.
  induction s as [|c s IH]; intros l Hl E; [reflexivity|].
  destruct l as [|y l]; [discriminate|]. simpl in *.
  injection E as Hc Hs. apply andb_true_iff in Hl as [Hy Hl].
  rewrite (lower_not_space c) by (rewrite Hc; exact Hy).
  simpl. eapply IH; eassumption.
Qed.

Lemma labels_not_space labels :
  Forall is_label labels ->
  all_of not_space (concat (map (fun l => l ++ ["."%char]) labels)).
Proof.
  induction 1 as [|l labels (_ & Hl & _) _ IH]; [reflexivity|].
  simpl. apply all_of_app. split; [|exact IH].
  apply all_of_app. split; [|reflexivity].
  eapply all_of_impl; [apply host_char_not_space|exact Hl].
Qed.

Lemma octet_not_space x : is_octet x -> all_of not_space x.
Proof.
  intros [_ H]. eapply all_of_impl; [|exact H].
  intros c Hc. apply host_char_not_space, digit_host_char, Hc.
Qed.

Lemma url_shape_not_space s : url_shape s -> all_of not_space s.
Proof.
  intros (sch & h & p & t & -> & Hs & Hh & Hp & Ht).
  apply all_of_app. split.
  { destruct Hs as [H|[H|[H|H]]];
      (eapply same_word_not_space; [|exact H]); reflexivity. }
  apply all_of_app. split; [reflexivity|].
  apply all_of_app. split.
  { destruct Hh as [(labels & tld & f & -> & _ & Hl & Ht' & Hf)|[H|H]].
    - apply all_of_app. split; [apply labels_not_space; exact Hl|].
      apply all_of_app. split.
      + destruct Ht' as [[_ H]|[_ H]].
        * eapply all_of_impl; [|exact H].
          intros c Hc. apply host_char_not_space, alpha_host_char, Hc.
        * eapply all_of_impl; [apply host_char_not_space|exact H].
      + destruct Hf as [->| ->]; reflexivity.
    - eapply same_word_not_space; [|exact H]. reflexivity.
    - destruct H as (a & b & c & d & -> & Ha & Hb & Hc & Hd).
      apply octet_not_space in Ha, Hb, Hc, Hd.
      apply all_of_app. split; [exact Ha|].
      change (all_of not_space (["."%char] ++ b ++ ["."%char] ++ c
                                ++ ["."%char] ++ d)).
      repeat (apply all_of_app; split); try assumption; reflexivity. }
  apply all_of_app. split.
  { destruct Hp as [->|(ds & -> & _ & Hd)]; [reflexivity|].
    change (all_of not_space ([":"%char] ++ ds)).
    apply all_of_app. split; [reflexivity|].
    eapply all_of_impl; [|exact Hd].
    intros c Hc. apply host_char_not_space, digit_host_char, Hc. }
  destruct Ht as [->|[->|(c & rest & -> & Hc & _ & Hr)]]; try reflexivity.
  change (all_of not_space ([c] ++ rest)).
  apply all_of_app. split; [|exact Hr].
  destruct Hc as [->| ->]; reflexivity.
Qed.



(** ** The monad and the world *)

Lemma fs_emit w e : fs (emit w e) = fs w.
Proof. reflexivity. Qed.

Lemma print_eq line w : print line w = (Ok tt, emit w (Print line)).
Proof. reflexivity. Qed.

(** ** The file system *)

Lemma same_dirs_refl f : same_dirs f f.
Proof. split; reflexivity. Qed.

Lemma same_dirs_trans f g h : same_dirs f g -> same_dirs g h -> same_dirs f h.
Proof.
  intros [C1 D1] [C2 D2]. split; [congruence|].
  intros p. rewrite D1. apply D2.
Qed.

Lemma walk_same_dirs f g cur comps :
  same_dirs f g -> walk f cur comps = walk g cur comps.
Proof.
  intros [_ D]. revert cur.
  induction comps as [|c rest IH]; intros cur; simpl; [reflexivity|].
  rewrite D. destruct (is_dir g cur); [|reflexivity].
  rewrite !IH. reflexivity.
Qed.

Lemma resolve_same_dirs f g p :
  same_dirs f g -> resolve f p = resolve g p.
Proof.
  intros H. unfold resolve. destruct (truthy p); [|reflexivity].
  destruct H as [C D]. rewrite C. apply walk_same_dirs. split; assumption.
Qed.

Lemma node_at_insert f q n p :
  q <> [] ->
  node_at (set_nodes f (<[q := n]> (nodes f))) p =
  if decide (q = p) then Some n else node_at f p.
Proof.
  intros Hq. destruct p as [|a p]; simpl.
  - destruct (decide (q = [])); [contradiction|reflexivity].
  - apply lookup_insert.
Qed.

Lemma node_at_delete f q p :
  q <> [] ->
  node_at (set_nodes f (delete q (nodes f))) p =
  if decide (q = p) then None else node_at f p.
Proof.
  intros Hq. destruct p as [|a p]; simpl.
  - destruct (decide (q = [])); [contradiction|reflexivity].
  - apply lookup_delete.
Qed.

Lemma not_dir_nonroot f q : is_dir f q = false -> q <> [].
Proof. intros H ->. discriminate. Qed.

(** Writing a regular file where there is no directory leaves the
    directories as they are. *)
Lemma same_dirs_insert_file f q d :
  is_dir f q = false ->
  same_dirs f (set_nodes f (<[q := File d]> (nodes f))).
Proof.
  intros H. split; [reflexivity|]. intros p. unfold is_dir at 2.
  rewrite node_at_insert by (eapply not_dir_nonroot; eassumption).
  destruct (decide (q = p)) as [->|]; [exact H|reflexivity].
Qed.

(** So does unlinking a regular file. *)
Lemma same_dirs_delete_file f q :
  is_dir f q = false ->
  same_dirs f (set_nodes f (delete q (nodes f))).
Proof.
  intros H. split; [reflexivity|]. intros p. unfold is_dir at 2.
  rewrite node_at_delete by (eapply not_dir_nonroot; eassumption).
  destruct (decide (q = p)) as [->|]; [exact H|reflexivity].
Qed.

Lemma resolve_truthy f p q : resolve f p = Some q -> truthy p = true.
Proof. unfold resolve. destruct (truthy p); [reflexivity|discriminate]. Qed.

(** What [os.remove] does, by the node its argument names. *)
Lemma os_remove_file p w q d :
  resolve (fs w) p = Some q ->
  node_at (fs w) q = Some (File d) ->
  os_remove p w =
    (Ok tt, set_fs (emit w (Remove p))
              (set_nodes (fs w) (delete q (nodes (fs w))))).
Proof. intros Hr Hn. unfold os_remove. rewrite Hr, Hn. reflexivity. Qed.

Lemma os_remove_dir p w :
  lookup_path (fs w) p = Some Dir ->
  os_remove p w =
    (Raise (IsADirectoryError ("[Errno 21] Is a directory: " +:+ py_repr p)),
     emit w (Remove p)).
Proof.
  unfold lookup_path, os_remove. destruct (resolve (fs w) p); [|discriminate].
  intros ->. reflexivity.
Qed.

(** After a successful [os.remove] the path names nothing. *)
Lemma os_remove_gone p w w' :
  os_remove p w = (Ok tt, w') -> lookup_path (fs w') p = None.
Proof.
  unfold os_remove.
  destruct (resolve (fs w) p) as [q|] eqn:Hr; [|discriminate].
  destruct (node_at (fs w) q) as [[d|]|] eqn:Hn; try discriminate.
  intros [= <-]. simpl. unfold lookup_path.
  assert (Hd : is_dir (fs w) q = false) by (unfold is_dir; rewrite Hn; reflexivity).
  rewrite <- (resolve_same_dirs _ _ p (same_dirs_delete_file _ q Hd)), Hr.
  rewrite node_at_delete by (eapply not_dir_nonroot; eassumption).
  destruct (decide (q = q)); [reflexivity|contradiction].
Qed.

(** [os.remove] raises only on what is not a regular file. *)
Lemma os_remove_ok p w d :
  lookup_path (fs w) p = Some (File d) ->
  exists w', os_remove p w = (Ok tt, w') /\ same_dirs (fs w) (fs w')
             /\ trace w' = trace w ++ [Remove p].
Proof.
  unfold lookup_path. destruct (resolve (fs w) p) as [q|] eqn:Hr; [|discriminate].
  intros Hn. eexists. split; [eapply os_remove_file; eassumption|].
  split; [|reflexivity]. simpl. apply same_dirs_delete_file.
  unfold is_dir. rewrite Hn. reflexivity.
Qed.


Lemma bind_ok {S A B} (m : M S A) (k : A -> M S B) s a s' :
  m s = (Ok a, s') -> bind m k s = k a s'.
Proof. intros H. unfold bind. rewrite H. reflexivity. Qed.

Lemma bind_raise {S A B} (m : M S A) (k : A -> M S B) s e s' :
  m s = (Raise e, s') -> bind m k s = (Raise e, s').
Proof. intros H. unfold bind. rewrite H. reflexivity. Qed.

(** A [try] whose handler always returns never raises. *)
Lemma try_except_total {S A} (m : M S A) (h : exn -> M S A) s :
  (forall e s1, exists a s2, h e s1 = (Ok a, s2)) ->
  exists a s', try_except m h s = (Ok a, s').
Proof.
  intros Hh. unfold try_except. destruct (m s) as [[a|e] s1]; eauto.
Qed.

(** What [open(p, "wb")] does when it succeeds. *)
Lemma open_wb_ok p w q w' :
  open_wb p w = (Ok q, w') ->
  resolve (fs w) p = Some q /\ is_dir (fs w) q = false /\
  is_dir (fs w) (removelast q) = true /\
  w' = set_fs w (set_nodes (fs w) (<[q := File []]> (nodes (fs w)))).
Proof.
  unfold open_wb. destruct (resolve (fs w) p) as [q0|]; [|discriminate].
  destruct (node_at (fs w) q0) as [[d|]|] eqn:Hn; try discriminate;
    destruct (is_dir (fs w) (removelast q0)) eqn:Hp; try discriminate;
    destruct (path_fits p); try discriminate;
    intros [= <- <-]; repeat split; try exact Hp;
    unfold is_dir; rewrite Hn; reflexivity.
Qed.

(** [open(p, "wb")] succeeds only on a path that fits the limits on
    names. *)
Lemma open_wb_fits p w q w' :
  open_wb p w = (Ok q, w') -> path_fits p = true.
Proof.
  unfold open_wb. destruct (resolve (fs w) p) as [q0|]; [|discriminate].
  destruct (node_at (fs w) q0) as [[d|]|]; try discriminate;
    destruct (is_dir (fs w) (removelast q0)); try discriminate;
    destruct (path_fits p); try discriminate; reflexivity.
Qed.

Lemma path_error_not_http creat f p c d :
  path_error creat f p <> HTTPException c d.
Proof.
  unfold path_error. destruct (has_nul p); [discriminate|].
  destruct (PATH_MAX <=? utf8_length p)%nat; [discriminate|].
  destruct (walk_errno _ _ _ _); discriminate.
Qed.

(** [open(p, "wb")] succeeds on a path that fits the limits on names,
    resolves, is no directory and lies in a directory. *)
Lemma open_wb_succeeds p w q :
  path_fits p = true ->
  resolve (fs w) p = Some q ->
  is_dir (fs w) q = false ->
  is_dir (fs w) (removelast q) = true ->
  open_wb p w =
    (Ok q, set_fs w (set_nodes (fs w) (<[q := File []]> (nodes (fs w))))).
Proof.
  intros Hf Hr Hd Hp. unfold open_wb. rewrite Hr, Hp, Hf.
  unfold is_dir in Hd. destruct (node_at (fs w) q) as [[d|]|];
    try reflexivity; discriminate.
Qed.

Lemma open_wb_raises p w e w' :
  open_wb p w = (Raise e, w') ->
  w' = w /\ forall c d, e <> HTTPException c d.
Proof.
  unfold open_wb. destruct (resolve (fs w) p) as [q0|].
  - destruct (node_at (fs w) q0) as [[d|]|];
      try destruct (is_dir (fs w) (removelast q0) && path_fits p);
      try discriminate;
      intros [= <- <-]; split; try reflexivity; intros;
      try apply path_error_not_http; discriminate.
  - intros [= <- <-]; split; try reflexivity; intros.
    apply path_error_not_http.
Qed.

(** Opening a path for writing and writing [data] to it: the path then
    names a regular file with exactly that content, and no directory has
    changed. *)
Lemma set_nodes_twice f m1 m2 : set_nodes (set_nodes f m1) m2 = set_nodes f m2.
Proof. reflexivity. Qed.

Lemma open_write_ok p w q w1 data :
  open_wb p w = (Ok q, w1) ->
  exists w2, write_bytes q data w1 = (Ok tt, w2) /\
    fs w2 = set_nodes (fs w) (<[q := File data]> (nodes (fs w))) /\
    same_dirs (fs w) (fs w2) /\
    lookup_path (fs w2) p = Some (File data) /\
    trace w2 = trace w /\ upload_pos w2 = upload_pos w.
Proof.
  intros H. apply open_wb_ok in H as (Hr & Hd & _ & ->).
  assert (Hq : q <> []) by (eapply not_dir_nonroot; eassumption).
  assert (Hs : same_dirs (fs w)
                 (set_nodes (fs w) (<[q := File data]> (nodes (fs w)))))
    by (apply same_dirs_insert_file; exact Hd).
  eexists. split; [reflexivity|].
  cbn [fs set_fs nodes set_nodes trace upload_pos cwd].
  rewrite lookup_insert_eq, insert_insert_eq, set_nodes_twice.
  change ([] ++ data) with data.
  repeat split; try apply Hs.
  unfold lookup_path. rewrite <- (resolve_same_dirs _ _ p Hs), Hr.
  rewrite node_at_insert by exact Hq.
  destruct (decide (q = q)); [reflexivity|contradiction].
Qed.


(** ** Saving the upload *)

Lemma lookup_path_file_not_dir f p d q :
  resolve f p = Some q -> lookup_path f p = Some (File d) -> is_dir f q = false.
Proof.
  unfold lookup_path, is_dir. intros -> ->. reflexivity.
Qed.

(** One pass of the upload block, when the file can be opened: the save
    path then holds what was left of the stream, and the stream is at its
    end. *)
Lemma save_upload_ok (u : upload) p w q w1 :
  open_wb p w = (Ok q, w1) ->
  exists w2, save_upload u p w = (Ok tt, w2) /\
    same_dirs (fs w) (fs w2) /\
    lookup_path (fs w2) p = Some (File (skipn (upload_pos w) (content u))) /\
    trace w2 = trace w /\ upload_pos w2 = length (content u) /\
    resolve (fs w2) p = Some q /\
    is_dir (fs w2) (removelast q) = true.
Proof.
  intros Ho. unfold save_upload. rewrite (bind_ok _ _ _ _ _ Ho).
  unfold copyfileobj.
  pose proof (open_wb_ok _ _ _ _ Ho) as (Hr & Hd & Hpar & ->).
  assert (Ho' : open_wb p (set_pos w (length (content u))) =
                (Ok q, set_fs (set_pos w (length (content u)))
                         (set_nodes (fs w) (<[q := File []]> (nodes (fs w))))))
    by exact (open_wb_succeeds p (set_pos w (length (content u))) q
                (open_wb_fits _ _ _ _ Ho) Hr Hd Hpar).
  destruct (open_write_ok _ _ _ _ (skipn (upload_pos w) (content u)) Ho')
    as (w2 & Hw & Hfs & Hs & Hl & Ht & Hp).
  exists w2. split; [exact Hw|]. split; [exact Hs|]. split; [exact Hl|].
  split; [exact Ht|]. split; [exact Hp|].
  split.
  - rewrite <- (resolve_same_dirs _ _ p Hs). exact Hr.
  - destruct Hs as [_ Hs]. rewrite <- Hs. exact Hpar.
Qed.

(** The upload block as the handler runs it, twice in a row.  When the file
    can be opened, the save path is [UPLOAD_DIR] joined with the client's
    file name, and the file it names ends up empty: the second pass
    truncates it and finds the stream already at its end. *)
Lemma persist_upload_ok (u : upload) name fr w q w1 :
  filename u = Some name ->
  open_wb (os_path_join UPLOAD_DIR name) w = (Ok q, w1) ->
  exists w2,
    persist_upload u (fr, w) =
      (Ok (os_path_join UPLOAD_DIR name),
       (set_temp_file_path (Some (os_path_join UPLOAD_DIR name)) fr, w2)) /\
    same_dirs (fs w) (fs w2) /\
    lookup_path (fs w2) (os_path_join UPLOAD_DIR name) = Some (File []) /\
    trace w2 = trace w /\ upload_pos w2 = length (content u).
Proof.
  intros Hn Ho. set (p := os_path_join UPLOAD_DIR name) in *.
  destruct (save_upload_ok u p w q w1 Ho)
    as (wa & Ha & Hsa & Hla & Hta & Hpa & Hra & Hpara).
  assert (Ho2 : open_wb p wa =
      (Ok q, set_fs wa (set_nodes (fs wa) (<[q := File []]> (nodes (fs wa))))))
    by (apply open_wb_succeeds;
        [exact (open_wb_fits _ _ _ _ Ho) | exact Hra
        | eapply lookup_path_file_not_dir; eassumption | exact Hpara]).
  destruct (save_upload_ok u p wa q _ Ho2)
    as (wb & Hb & Hsb & Hlb & Htb & Hpb & _).
  exists wb. split.
  - unfold persist_upload, save_once, bind, join_upload_dir, update, lift, ret.
    rewrite Hn. cbn [fst snd]. fold p. rewrite Ha. cbn [fst snd].
    rewrite Hb. reflexivity.
  - split; [eapply same_dirs_trans; eassumption|].
    split; [|split; [congruence|exact Hpb]].
    rewrite Hlb, Hpa, skipn_all. reflexivity.
Qed.




(** ** Cleanup *)

(** One [if path and os.path.exists(path): os.remove(path)] of the
    [finally] block, by what the path names. *)
Lemma cleanup_path_absent label path w :
  (forall p, path = Some p -> truthy p = true -> lookup_path (fs w) p = None) ->
  cleanup_path label path w = (Ok tt, w).
Proof.
  intros H. unfold cleanup_path. destruct path as [p|]; [|reflexivity].
  destruct (truthy p) eqn:Ht; [|reflexivity].
  unfold bind, os_path_exists. rewrite (H p eq_refl Ht).
  rewrite bool_decide_eq_false_2 by (intros [x Hx]; discriminate).
  reflexivity.
Qed.

Lemma cleanup_path_file label p w d :
  lookup_path (fs w) p = Some (File d) ->
  exists w', cleanup_path label (Some p) w = (Ok tt, w') /\
    lookup_path (fs w') p = None /\ same_dirs (fs w) (fs w') /\
    trace w' = trace w ++ [Remove p; Print (label +:+ p)].
Proof.
  intros Hl. unfold cleanup_path.
  assert (Ht : truthy p = true).
  { unfold lookup_path in Hl. destruct (resolve (fs w) p) eqn:Hr; [|discriminate].
    eapply resolve_truthy; eassumption. }
  rewrite Ht. unfold bind at 1, os_path_exists. rewrite Hl.
  rewrite bool_decide_eq_true_2 by eauto.
  destruct (os_remove_ok p w d Hl) as (w1 & Hrm & Hs & Htr).
  rewrite (bind_ok _ _ _ _ _ Hrm). rewrite print_eq.
  eexists. split; [reflexivity|]. cbn [fs emit trace].
  split; [eapply os_remove_gone; eassumption|]. split; [exact Hs|].
  rewrite Htr, <- app_assoc. reflexivity.
Qed.

Lemma cleanup_path_dir label p w :
  lookup_path (fs w) p = Some Dir ->
  cleanup_path label (Some p) w =
    (Raise (IsADirectoryError ("[Errno 21] Is a directory: " +:+ py_repr p)),
     emit w (Remove p)).
Proof.
  intros Hl. unfold cleanup_path.
  assert (Ht : truthy p = true).
  { unfold lookup_path in Hl. destruct (resolve (fs w) p) eqn:Hr; [|discriminate].
    eapply resolve_truthy; eassumption. }
  rewrite Ht. unfold bind at 1, os_path_exists. rewrite Hl.
  rewrite bool_decide_eq_true_2 by eauto.
  rewrite (bind_raise _ _ _ _ _ (os_remove_dir p w Hl)). reflexivity.
Qed.


Section Properties.

Variable audio : Type.
Variable decode : string -> list Byte.byte -> result audio.
Variable encode_wav : audio -> list Byte.byte.
Variable info : Type.
Variable ydl_extract_info : string -> fsys -> fsys * result info.
Variable ydl_prepare_filename : info -> string.
Variable audio_data : Type.
Variable sr_record : list Byte.byte -> result audio_data.
Variable recognize_google : audio_data -> result string.

Local Abbreviation convert := (convert_to_wav audio decode encode_wav).
Local Abbreviation download :=
  (download_audio_from_url audio decode encode_wav
     info ydl_extract_info ydl_prepare_filename).
Local Abbreviation recognise := (recognition audio_data sr_record recognize_google).
Local Abbreviation transcribe :=
  (transcribe_audio audio_data sr_record recognize_google).
Local Abbreviation acquire_audio :=
  (acquire audio decode encode_wav info ydl_extract_info ydl_prepare_filename).
Local Abbreviation run_pipeline :=
  (pipeline audio decode encode_wav info ydl_extract_info ydl_prepare_filename
     audio_data sr_record recognize_google).
Local Abbreviation handler :=
  (transcribe_audio_video audio decode encode_wav
     info ydl_extract_info ydl_prepare_filename
     audio_data sr_record recognize_google).

(** ** The format normaliser *)

Lemma from_file_spec p fmt w :
  snd (from_file audio decode p fmt w) = w /\
  (forall a, fst (from_file audio decode p fmt w) = Ok a ->
             exists src, lookup_path (fs w) p = Some (File src)).
Proof.
  unfold from_file, bind, read_file, lift_result.
  destruct (lookup_path (fs w) p) as [[src|]|]; simpl.
  - destruct (decode fmt src); simpl; eauto.
  - split; [reflexivity|discriminate].
  - split; [reflexivity|discriminate].
Qed.

(** [convert_to_wav] never raises.  It changes no directory and does not
    read the upload stream; when it returns no path it has not touched the
    file system at all, and when it returns a path, that path is
    [output_wav_path] of its argument, it names a regular file, and the
    input was a regular file. *)
Lemma convert_spec p w :
  exists r w', convert p w = (Ok r, w') /\
    same_dirs (fs w) (fs w') /\ upload_pos w' = upload_pos w /\
    match r with
    | None => fs w' = fs w
    | Some o =>
        o = output_wav_path p /\
        (exists d, lookup_path (fs w') o = Some (File d)) /\
        (exists src, lookup_path (fs w) p = Some (File src))
    end.
Proof.
  unfold convert_to_wav.
  rewrite (bind_ok _ _ _ _ _ (print_eq _ w)).
  set (w1 := emit w _). unfold try_except.
  assert (Hfail : forall e w2, fs w2 = fs w ->
            upload_pos w2 = upload_pos w ->
            exists r w',
              (print ("Error converting file " +:+ p +:+ " to WAV: " +:+ exn_str e);;
               ret None) w2 = (Ok r, w') /\
              same_dirs (fs w) (fs w') /\ upload_pos w' = upload_pos w /\
              match r with
              | None => fs w' = fs w
              | Some o => o = output_wav_path p /\
                  (exists d, lookup_path (fs w') o = Some (File d)) /\
                  (exists src, lookup_path (fs w) p = Some (File src))
              end).
  { intros e w2 Hf Hp. eexists None, _. split; [reflexivity|].
    cbn [fs emit upload_pos]. rewrite Hf, Hp.
    split; [apply same_dirs_refl|]. split; reflexivity. }
  assert (Hgo : forall fmt,
    exists r w',
      match
        (let* a := (let* a := from_file audio decode p fmt in ret (Some a)) in
         match a with
         | Some a0 =>
             export audio encode_wav a0 (output_wav_path p);;
             print ("Successfully converted " +:+ p +:+ " to "
                    +:+ output_wav_path p);;
             ret (Some (output_wav_path p))
         | None => ret None
         end) w1
      with
      | (Ok a, s') => (Ok a, s')
      | (Raise e, s') =>
          (print ("Error converting file " +:+ p +:+ " to WAV: " +:+ exn_str e);;
           ret None) s'
      end = (Ok r, w') /\
      same_dirs (fs w) (fs w') /\ upload_pos w' = upload_pos w /\
      match r with
      | None => fs w' = fs w
      | Some o => o = output_wav_path p /\
          (exists d, lookup_path (fs w') o = Some (File d)) /\
          (exists src, lookup_path (fs w) p = Some (File src))
      end).
  { intros fmt. unfold bind at 1 2.
    destruct (from_file_spec p fmt w1) as [Hw Hsrc].
    destruct (from_file audio decode p fmt w1) as [[a|e] w2];
      simpl in Hw; subst w2.
    - specialize (Hsrc a eq_refl). unfold ret at 1.
      unfold bind at 1. unfold export, bind at 1.
      destruct (open_wb (output_wav_path p) w1) as [[q|e] w2] eqn:Ho.
      + destruct (open_write_ok _ _ _ _ (encode_wav a) Ho)
          as (w3 & Hw3 & _ & Hs & Hl & _ & Hp).
        rewrite Hw3. eexists (Some _), _. split; [reflexivity|].
        cbn [fs emit upload_pos].
        split; [exact Hs|]. split; [exact Hp|]. split; [reflexivity|].
        split; [eauto|exact Hsrc].
      + apply open_wb_raises in Ho as [-> _]. apply Hfail; reflexivity.
    - apply Hfail; reflexivity. }
  destruct (str_in (file_extension p) audio_formats); [apply Hgo|].
  destruct (str_in (file_extension p) video_formats); [apply Hgo|].
  eexists None, _. split; [reflexivity|]. cbn [fs emit upload_pos].
  split; [apply same_dirs_refl|]. split; reflexivity.
Qed.



(** ** The URL audio acquirer never raises *)

Lemma download_total url w :
  exists r w', download url w = (Ok r, w').
Proof.
  unfold download_audio_from_url.
  rewrite (bind_ok _ _ _ _ _ (print_eq _ w)).
  apply try_except_total. intros e s1. eexists _, _. reflexivity.
Qed.


(** ** The fallback of the URL audio acquirer *)

Lemma lookup_path_dir_same f g p :
  same_dirs f g -> lookup_path f p = Some Dir -> lookup_path g p = Some Dir.
Proof.
  intros Hs. unfold lookup_path. rewrite <- (resolve_same_dirs _ _ p Hs).
  destruct (resolve f p) as [q|]; [|discriminate].
  destruct Hs as [_ Hd]. specialize (Hd q). unfold is_dir in Hd.
  intros H. rewrite H in Hd.
  destruct (node_at g q) as [[x|]|]; try discriminate; reflexivity.
Qed.

Lemma same_dirs_sym f g : same_dirs f g -> same_dirs g f.
Proof. intros [C D]. split; [congruence|]. intros p. rewrite D. reflexivity. Qed.

Lemma os_listdir_world p w : snd (os_listdir p w) = w.
Proof.
  unfold os_listdir. destruct (resolve (fs w) p) as [q|]; [|reflexivity].
  destruct (node_at (fs w) q) as [[d|]|]; reflexivity.
Qed.

(** C8 (amended): when the downloader has returned and no name in the temp
    directory starts with the downloaded item's base name and ends in
    [.wav], [download_audio_from_url] runs [convert_to_wav] on the file the
    downloader named and returns what it returned; and whether or not that
    conversion produced a path, the downloaded file is not left behind as a
    regular file: if it is there after the conversion attempt, it is
    removed. *)
Theorem C8_fallback_removes_download
    (url : string) (w : world) (f1 : fsys) (i : info) (names : list string) :
  let d := ydl_prepare_filename i in
  let w1 := emit (set_fs (emit (emit w
                  (Print ("Starting audio download from URL: " +:+ url)))
                  (Extract url)) f1)
                 (Print ("yt-dlp downloaded file: " +:+ d)) in
  let w2 := emit w1 (Print
              ("Direct WAV not found, attempting conversion from: " +:+ d)) in
  ydl_extract_info url (fs w) = (f1, Ok i) ->
  os_listdir UPLOAD_DIR w1 = (Ok names, w1) ->
  find_wav (os_path_basename (fst (os_path_splitext d))) names = None ->
  exists w',
    download url w = (fst (convert d w2), w') /\
    (forall data, lookup_path (fs w') d <> Some (File data)) /\
    ((exists data, lookup_path (fs (snd (convert d w2))) d = Some (File data))
     -> In (Remove d) (trace w')).
Proof.
  intros d w1 w2 Hy Hls Hfind.
  unfold download_audio_from_url.
  rewrite (bind_ok _ _ _ _ _ (print_eq _ w)).
  unfold try_except.
  assert (Hex : extract_info info ydl_extract_info url
                  (emit w (Print ("Starting audio download from URL: " +:+ url)))
                = (Ok i, set_fs (emit (emit w
                     (Print ("Starting audio download from URL: " +:+ url)))
                     (Extract url)) f1)).
  { unfold extract_info. cbn [fs emit]. rewrite Hy. reflexivity. }
  rewrite (bind_ok _ _ _ _ _ Hex).
  fold d. rewrite (bind_ok _ _ _ _ _ (print_eq _ _)). fold w1.
  rewrite (bind_ok _ _ _ _ _ Hls). rewrite Hfind.
  unfold bind at 1. unfold ret at 1. cbn [negb].
  unfold bind at 1. rewrite (bind_ok _ _ _ _ _ (print_eq _ w1)). fold w2.
  destruct (convert_spec d w2) as (r & w3 & Hc & Hs & _ & Hr).
  rewrite Hc. cbn [fst snd]. unfold bind at 1 2 3, os_path_exists.
  rewrite Hc. cbn iota beta.
  destruct (lookup_path (fs w3) d) as [[data|]|] eqn:Hl.
  - rewrite bool_decide_eq_true_2 by eauto.
    destruct (os_remove_ok d w3 data Hl) as (w4 & Hrm & _ & Htr).
    rewrite Hrm. unfold bind, ret. rewrite print_eq.
    eexists. split; [reflexivity|]. cbn [fs emit trace]. split.
    + intros data'. rewrite (os_remove_gone _ _ _ Hrm). discriminate.
    + intros _. rewrite Htr. apply in_or_app. left.
      apply in_or_app. right. left. reflexivity.
  - rewrite bool_decide_eq_true_2 by eauto.
    rewrite (os_remove_dir d w3 Hl).
    assert (r = None) as ->.
    { destruct r as [o|]; [|reflexivity]. destruct Hr as (_ & _ & src & Hsrc).
      apply (lookup_path_dir_same _ _ d (same_dirs_sym _ _ Hs)) in Hl.
      rewrite Hsrc in Hl. discriminate. }
    unfold bind, ret. rewrite print_eq.
    eexists. split; [reflexivity|]. cbn [fs emit trace]. split.
    + intros data'. rewrite Hl. discriminate.
    + intros [data' Hd']. discriminate.
  - rewrite bool_decide_eq_false_2 by (intros [x Hx]; discriminate).
    unfold bind, ret. rewrite print_eq.
    eexists. split; [reflexivity|]. cbn [fs emit trace]. split.
    + intros data'. rewrite Hl. discriminate.
    + intros [data' Hd']. discriminate.
Qed.


(** ** The transcriber *)

Lemma recognition_world p w : snd (recognise p w) = w.
Proof.
  unfold recognition, bind, read_file, lift_result.
  destruct (lookup_path (fs w) p) as [[d|]|]; simpl; try reflexivity.
  destruct (sr_record d); reflexivity.
Qed.

Lemma transcribe_total p w :
  exists t w', transcribe p w = (Ok t, w').
Proof.
  unfold transcribe_audio. rewrite (bind_ok _ _ _ _ _ (print_eq _ w)).
  apply try_except_total. intros e s1. destruct e; eexists _, _; reflexivity.
Qed.

(** An error of the file system is neither of the recogniser's two. *)
Lemma failure_message_path_error creat f p :
  failure_message (path_error creat f p)
  = "Error during transcription: " +:+ exn_str (path_error creat f p).
Proof.
  unfold path_error. destruct (has_nul p); [reflexivity|].
  destruct (PATH_MAX <=? utf8_length p)%nat; [reflexivity|].
  destruct (walk_errno _ _ _ _); reflexivity.
Qed.

(** What [transcribe_audio] returns, from the file at the path and the
    answers of the two calls of the recogniser. *)
Lemma transcribe_outcome p w :
  exists w',
    transcribe p w =
      (Ok match lookup_path (fs w) p with
          | Some (File data) =>
              match sr_record data with
              | Ok a =>
                  match recognize_google a with
                  | Ok text => text
                  | Raise e => failure_message e
                  end
              | Raise e => failure_message e
              end
          | Some Dir => failure_message (os_error EISDIR p)
          | None => failure_message (path_error false (fs w) p)
          end, w') /\
    fs w' = fs w.
Proof.
  unfold transcribe_audio, bind at 1. rewrite print_eq.
  unfold try_except, recognition, bind, read_file, lift_result.
  cbn [fs emit].
  destruct (lookup_path (fs w) p) as [[data|]|].
  - destruct (sr_record data) as [a|e].
    + destruct (recognize_google a) as [text|e].
      * rewrite print_eq. eexists. split; reflexivity.
      * destruct e; eexists; split; reflexivity.
    + destruct e; eexists; split; reflexivity.
  - eexists. split; reflexivity.
  - destruct (path_error false (fs w) p); eexists; split; reflexivity.
Qed.

(** C2: [transcribe_audio] returns a string for every path and never
    raises, and it leaves the file system as it was.  For a path that
    names a regular file the string follows from the answers of the
    recogniser's two calls, [r.record] on the content of the file and then
    [r.recognize_google]: the recognised text when both return; the fixed
    message "Google Speech Recognition could not understand audio" when
    one of them raises [UnknownValueError]; the request message followed by
    the text of the error when one raises [RequestError]; "Error during
    transcription: " followed by the text of the error when one raises
    anything else.  For a path that names a directory or nothing, the
    string is "Error during transcription: " followed by the text of the
    error of opening the file. *)
Theorem C2_transcribe_audio_total (p : string) (w : world) :
  exists (t : string) (w' : world),
    transcribe p w = (Ok t, w') /\ fs w' = fs w /\
    match lookup_path (fs w) p with
    | Some (File data) =>
        match sr_record data with
        | Ok a =>
            match recognize_google a with
            | Ok text => t = text
            | Raise (UnknownValueError _) =>
                t = "Google Speech Recognition could not understand audio"
            | Raise (RequestError m) =>
                t = "Could not request results from Google Speech Recognition service; "
                    +:+ m
            | Raise e => t = "Error during transcription: " +:+ exn_str e
            end
        | Raise (UnknownValueError _) =>
            t = "Google Speech Recognition could not understand audio"
        | Raise (RequestError m) =>
            t = "Could not request results from Google Speech Recognition service; "
                +:+ m
        | Raise e => t = "Error during transcription: " +:+ exn_str e
        end
    | Some Dir =>
        t = "Error during transcription: " +:+ exn_str (os_error EISDIR p)
    | None =>
        t = "Error during transcription: "
            +:+ exn_str (path_error false (fs w) p)
    end.
Proof.
  destruct (transcribe_outcome p w) as (w' & Hrun & Hfs).
  eexists _, w'. split; [exact Hrun|]. split; [exact Hfs|].
  destruct (lookup_path (fs w) p) as [[data|]|].
  - destruct (sr_record data) as [a|e].
    + destruct (recognize_google a) as [text|e]; [reflexivity|].
      destruct e; reflexivity.
    + destruct e; reflexivity.
  - reflexivity.
  - apply failure_message_path_error.
Qed.

(** ** Requests that are refused before any work is done *)

(** C3: a request with neither an upload nor a (non-empty) video URL is
    answered with the message "No file or video URL provided."; the run
    prints one line and leaves the file system exactly as it found it, so
    it neither creates nor leaves a file in the temp directory. *)
Theorem C3_no_input_rejected (req : request) (w : world) :
  file req = None ->
  truthy_opt (video_url req) = false ->
  handler req w =
    (Ok (MkResponse 200 "" (Some "No file or video URL provided.")),
     emit w (Print "HTTPException: No file or video URL provided."))
  /\ fs (snd (handler req w)) = fs w.
Proof.
  intros Hf Hu.
  assert (E : handler req w =
    (Ok (MkResponse 200 "" (Some "No file or video URL provided.")),
     emit w (Print "HTTPException: No file or video URL provided."))).
  { unfold transcribe_audio_video, finally_return, try_except, pipeline,
      acquire, bind at 1 2.
    rewrite Hf. destruct (video_url req) as [u|]; simpl in Hu.
    - rewrite Hu. reflexivity.
    - reflexivity. }
  split; [exact E | rewrite E; reflexivity].
Qed.

(** C5: with no upload and a non-empty video URL that [is_valid_url]
    rejects, the answer carries "Invalid URL provided." and the whole run
    consists of printing one line: [download_audio_from_url] is not entered
    (its first line is never printed), the downloader is never asked for
    anything, and the file system is untouched. *)
Theorem C5_invalid_url_short_circuits (req : request) (u : string) (w : world) :
  file req = None ->
  video_url req = Some u ->
  truthy u = true ->
  is_valid_url u = false ->
  handler req w =
    (Ok (MkResponse 200 "" (Some "Invalid URL provided.")),
     emit w (Print "HTTPException: Invalid URL provided."))
  /\ (forall url, ~ In (Extract url) (skipn (length (trace w))
                                       (trace (snd (handler req w)))))
  /\ ~ In (Print ("Starting audio download from URL: " +:+ u))
          (skipn (length (trace w)) (trace (snd (handler req w))))
  /\ fs (snd (handler req w)) = fs w.
Proof.
  intros Hf Hu Ht Hv.
  assert (E : handler req w =
    (Ok (MkResponse 200 "" (Some "Invalid URL provided.")),
     emit w (Print "HTTPException: Invalid URL provided."))).
  { unfold transcribe_audio_video, finally_return, try_except, pipeline,
      acquire, bind at 1 2.
    rewrite Hf, Hu, Ht. unfold bind at 1. rewrite Hv. reflexivity. }
  rewrite E. simpl.
  rewrite skipn_app, skipn_all, Nat.sub_diag. simpl.
  repeat split; try reflexivity.
  - intros url [H|[]]. discriminate.
  - intros [H|[]]. discriminate.
Qed.


(** ** The handler *)

(** The [finally] block on a given frame: the response is built from the
    frame's text and error message once both cleanups have returned. *)
Lemma cleanup_and_respond_eq fr w :
  cleanup_and_respond (fr, w) =
  match cleanup_path "Cleaned up temporary file: " (temp_file_path fr) w with
  | (Ok _, w1) =>
      match cleanup_path "Cleaned up audio file: " (audio_file_path fr) w1 with
      | (Ok _, w2) =>
          (Ok (MkResponse 200 (transcribed_text fr) (error_message fr)),
           (fr, w2))
      | (Raise e, w2) => (Raise e, (fr, w2))
      end
  | (Raise e, w1) => (Raise e, (fr, w1))
  end.
Proof.
  unfold cleanup_and_respond, bind, get_frame, lift, ret. cbn [fst snd].
  destruct (cleanup_path _ (temp_file_path fr) w) as [[[]|e] w1];
    [|reflexivity].
  cbn [fst snd].
  destruct (cleanup_path _ (audio_file_path fr) w1) as [[[]|e] w2];
    reflexivity.
Qed.

(** The handler is its [try] body, then the matching [except] clause,
    then the [finally] block. *)
Lemma handler_eq req w :
  handler req w =
  match
    cleanup_and_respond
      (snd (try_except (run_pipeline req) on_exception (frame0, w)))
  with
  | (r, (_, w')) => (r, w')
  end.
Proof. reflexivity. Qed.



Lemma require_path_spec {S} (a : option string) detail (s : S) :
  (exists p, a = Some p /\ truthy p = true /\
             require_path a detail s = (Ok p, s)) \/
  (truthy_opt a = false /\
   require_path a detail s = (Raise (HTTPException 400 detail), s)).
Proof.
  unfold require_path, truthy_opt. destruct a as [p|].
  - destruct (truthy p) eqn:Ht; [left; eauto|right; auto].
  - right; auto.
Qed.


Lemma cleanup_and_respond_ok fr w resp s' :
  cleanup_and_respond (fr, w) = (Ok resp, s') ->
  resp = MkResponse 200 (transcribed_text fr) (error_message fr).
Proof.
  rewrite cleanup_and_respond_eq.
  destruct (cleanup_path _ (temp_file_path fr) w) as [[[]|e] w1];
    [|discriminate].
  destruct (cleanup_path _ (audio_file_path fr) w1) as [[[]|e] w2];
    [|discriminate].
  intros [= <- _]. reflexivity.
Qed.



(** ** What cleanup achieves when the handler returns *)

Lemma persist_upload_paths (u : upload) name s r s' :
  filename u = Some name ->
  persist_upload u s = (r, s') ->
  temp_file_path (fst s') = Some (os_path_join UPLOAD_DIR name) /\
  audio_file_path (fst s') = audio_file_path (fst s).
Proof.
  intros Hn.
  unfold persist_upload, save_once, bind, join_upload_dir, update, lift, ret.
  rewrite Hn. cbn [fst snd].
  destruct (save_upload u _ (snd s)) as [[[]|e1] wa].
  - cbn [fst snd]. destruct (save_upload u _ wa) as [[[]|e2] wb];
      intros [= <- <-]; split; reflexivity.
  - intros [= <- <-]; split; reflexivity.
Qed.

(** The acquisition block leaves the save path of the upload in
    [temp_file_path], and the path it returns in [audio_file_path]. *)
Lemma acquire_paths req s r s' :
  acquire_audio req s = (r, s') ->
  (forall u name, file req = Some u -> filename u = Some name ->
                  temp_file_path (fst s')
                    = Some (os_path_join UPLOAD_DIR name)) /\
  (forall a, r = Ok a -> audio_file_path (fst s') = Some a).
Proof.
  unfold acquire. destruct (file req) as [f|].
  - unfold bind at 1.
    destruct (persist_upload f s) as [[p|e] s1] eqn:Hp.
    + unfold bind, lift, update. cbn [fst snd]. rewrite print_eq.
      cbn [fst snd].
      destruct (convert_spec p (emit (snd s1)
                  (Print ("Uploaded file saved to: " +:+ p))))
        as (a & w2 & Hc & _).
      rewrite Hc. cbn [fst snd].
      destruct (require_path_spec a "Could not convert file to audio."
                  (set_audio_file_path a (fst s1), w2))
        as [(p' & -> & Ht & Hr)|[Ht Hr]]; rewrite Hr.
      * rewrite print_eq. intros [= <- <-]. cbn [fst snd]. split.
        -- intros u name [= <-] Hn.
           apply (persist_upload_paths f name _ _ _ Hn Hp).
        -- intros a [= <-]. reflexivity.
      * intros [= <- <-]. cbn [fst snd]. split; [|discriminate].
        intros u name [= <-] Hn.
        apply (persist_upload_paths f name _ _ _ Hn Hp).
    + intros [= <- <-]. split; [|discriminate].
      intros u name [= <-] Hn.
      apply (persist_upload_paths f name _ _ _ Hn Hp).
  - destruct (video_url req) as [u|].
    2:{ intros [= <- <-]. split; [discriminate|discriminate]. }
    destruct (truthy u).
    2:{ intros [= <- <-]. split; [discriminate|discriminate]. }
    unfold bind at 1. destruct (is_valid_url u); cbn [negb].
    2:{ intros [= <- <-]. split; [discriminate|discriminate]. }
    unfold ret at 1. unfold bind, lift, update. cbn [fst snd].
    rewrite print_eq. cbn [fst snd].
    destruct (download_total u (emit (snd s)
                (Print ("Attempting to download audio from URL: " +:+ u))))
      as (a & w2 & Hd).
    rewrite Hd. cbn [fst snd].
    destruct (require_path_spec a
                "Could not download audio from the provided URL."
                (set_audio_file_path a (fst s), w2))
      as [(p' & -> & Ht & Hr)|[Ht Hr]]; rewrite Hr.
    + rewrite print_eq. intros [= <- <-]. split; [discriminate|].
      intros a [= <-]. reflexivity.
    + intros [= <- <-]. split; [discriminate|discriminate].
Qed.

Lemma lookup_path_after_delete f q p :
  is_dir f q = false ->
  lookup_path f p = None ->
  lookup_path (set_nodes f (delete q (nodes f))) p = None.
Proof.
  intros Hd. unfold lookup_path.
  rewrite <- (resolve_same_dirs _ _ p (same_dirs_delete_file f q Hd)).
  destruct (resolve f p) as [q'|]; [|reflexivity].
  rewrite node_at_delete by (eapply not_dir_nonroot; eassumption).
  destruct (decide (q = q')); auto.
Qed.

(** One cleanup that returns: its path names nothing afterwards, and no
    other path has come into being. *)
Lemma cleanup_path_returns label path w w' :
  cleanup_path label path w = (Ok tt, w') ->
  (forall p, path = Some p -> lookup_path (fs w') p = None) /\
  (forall p, lookup_path (fs w) p = None -> lookup_path (fs w') p = None).
Proof.
  unfold cleanup_path. destruct path as [p|].
  2:{ intros [= <-]. split; [discriminate|auto]. }
  destruct (truthy p) eqn:Ht.
  2:{ intros [= <-]. split; [|auto]. intros ? [= <-].
      unfold lookup_path, resolve. rewrite Ht. reflexivity. }
  unfold bind at 1, os_path_exists.
  destruct (lookup_path (fs w) p) as [[d|]|] eqn:Hl.
  - rewrite bool_decide_eq_true_2 by eauto.
    unfold bind. destruct (os_remove p w) as [[[]|e] w1] eqn:Hrm;
      [|discriminate].
    rewrite print_eq. intros [= <-]. cbn [fs emit]. split.
    + intros ? [= <-]. eapply os_remove_gone; eassumption.
    + intros p' Hp'. unfold lookup_path in Hl.
      destruct (resolve (fs w) p) as [q|] eqn:Hr; [|discriminate].
      rewrite (os_remove_file p w q d Hr Hl) in Hrm.
      injection Hrm as <-. cbn [fs set_fs].
      apply lookup_path_after_delete; [|exact Hp'].
      unfold is_dir. rewrite Hl. reflexivity.
  - rewrite bool_decide_eq_true_2 by eauto.
    rewrite (bind_raise _ _ _ _ _ (os_remove_dir p w Hl)). discriminate.
  - rewrite bool_decide_eq_false_2 by (intros [x Hx]; discriminate).
    intros [= <-]. split; [|auto]. intros ? [= <-]. exact Hl.
Qed.

(** Whenever the handler returns a response, the save path of the upload
    and the audio path that was transcribed name nothing any more.  (The
    handler fails to return only when one of them names a directory, see
    [handler_raises_on_directory].) *)
Lemma handler_returns_clean (req : request) (w : world) resp w' :
  handler req w = (Ok resp, w') ->
  (forall u name, file req = Some u -> filename u = Some name ->
                  lookup_path (fs w') (os_path_join UPLOAD_DIR name) = None) /\
  (forall a s1, acquire_audio req (frame0, w) = (Ok a, s1) ->
                lookup_path (fs w') a = None).
Proof.
  rewrite handler_eq. unfold try_except, pipeline.
  assert (Hfin : forall fr w1,
            (forall u name, file req = Some u -> filename u = Some name ->
               temp_file_path fr = Some (os_path_join UPLOAD_DIR name)) ->
            (forall a s1, acquire_audio req (frame0, w) = (Ok a, s1) ->
               audio_file_path fr = Some a) ->
            (let (r, s) := cleanup_and_respond (fr, w1) in
             let (_, w'0) := s in (r, w'0)) = (Ok resp, w') ->
            (forall u name, file req = Some u -> filename u = Some name ->
               lookup_path (fs w') (os_path_join UPLOAD_DIR name) = None) /\
            (forall a s1, acquire_audio req (frame0, w) = (Ok a, s1) ->
               lookup_path (fs w') a = None)).
  { intros fr w1 Htmp Haud. rewrite cleanup_and_respond_eq.
    destruct (cleanup_path _ (temp_file_path fr) w1) as [[[]|e] w2] eqn:H1;
      [|discriminate].
    destruct (cleanup_path _ (audio_file_path fr) w2) as [[[]|e] w3] eqn:H2;
      [|discriminate].
    intros [= _ <-].
    apply cleanup_path_returns in H1 as [G1 _].
    apply cleanup_path_returns in H2 as [G2 K2].
    split.
    - intros u name Hf Hn. apply K2, G1. eapply Htmp; eassumption.
    - intros a s1 Ha. apply G2. eapply Haud; eassumption. }
  destruct (acquire_audio req (frame0, w)) as [[a|e] [fr1 w1]] eqn:Hacq.
  - pose proof (acquire_paths _ _ _ _ Hacq) as [Htmp Haud].
    cbn [fst snd] in Htmp, Haud.
    rewrite (bind_ok _ _ _ _ _ Hacq).
    unfold bind at 1, lift at 1. cbn [fst snd]. rewrite print_eq.
    destruct (transcribe_total a
                (emit w1 (Print ("Starting transcription for: " +:+ a))))
      as (t & w2 & Htr).
    unfold bind, lift, update. cbn [fst snd]. rewrite Htr. cbn [fst snd].
    rewrite print_eq. cbn [fst snd].
    apply Hfin.
    + intros u name Hf Hn. cbn [temp_file_path set_transcribed_text].
      eapply Htmp; eassumption.
    + intros a' s1 [= <- _]. cbn [audio_file_path set_transcribed_text].
      apply Haud. reflexivity.
  - pose proof (acquire_paths _ _ _ _ Hacq) as [Htmp _].
    cbn [fst snd] in Htmp.
    rewrite (bind_raise _ _ _ _ _ Hacq). unfold on_exception.
    destruct e; unfold bind, update, lift; cbn [fst snd];
      rewrite print_eq; cbn [fst snd]; apply Hfin;
      try (intros u name Hf Hn; cbn [temp_file_path set_error_message];
           eapply Htmp; eassumption);
      discriminate.
Qed.


(** ** Cleanup on a save path that names a directory *)

Lemma open_wb_dir p w :
  lookup_path (fs w) p = Some Dir ->
  open_wb p w =
    (Raise (IsADirectoryError ("[Errno 21] Is a directory: " +:+ py_repr p)),
     w).
Proof.
  unfold lookup_path, open_wb.
  destruct (resolve (fs w) p); [|discriminate]. intros ->. reflexivity.
Qed.

(** When the save path of an upload names a directory, [open] fails, the
    failure is caught, and then the [finally] block calls [os.remove] on
    the directory: the handler raises instead of returning a response. *)
Lemma handler_raises_on_directory (req : request) (u : upload) name w :
  file req = Some u ->
  filename u = Some name ->
  lookup_path (fs w) (os_path_join UPLOAD_DIR name) = Some Dir ->
  let p := os_path_join UPLOAD_DIR name in
  let msg := "[Errno 21] Is a directory: " +:+ py_repr p in
  handler req w =
    (Raise (IsADirectoryError msg),
     emit (emit w (Print ("Unexpected error: " +:+ msg))) (Remove p)).
Proof.
  intros Hf Hn Hl p msg. rewrite handler_eq.
  assert (Hacq : acquire_audio req (frame0, w) =
            (Raise (IsADirectoryError msg),
             (set_temp_file_path (Some p) frame0, w))).
  { unfold acquire. rewrite Hf.
    unfold persist_upload, save_once, bind, join_upload_dir, update, lift, ret.
    rewrite Hn. cbn [fst snd]. fold p.
    unfold save_upload, bind. rewrite (open_wb_dir p w Hl). reflexivity. }
  unfold try_except, pipeline. rewrite (bind_raise _ _ _ _ _ Hacq).
  unfold on_exception, bind, update, lift. cbn [fst snd]. rewrite print_eq.
  cbn [fst snd]. rewrite cleanup_and_respond_eq.
  cbn [temp_file_path set_error_message set_temp_file_path].
  rewrite cleanup_path_dir by exact Hl. reflexivity.
Qed.

(** C1 (the code at the failing input): an upload whose file name is [.]
    makes the handler raise out of its [finally] block.  [open] on
    [temp_uploads/.] fails and the failure is caught; cleanup then finds
    that the path exists and calls [os.remove] on it, which raises because
    the path is a directory.  No response is returned.  The same happens
    for the empty file name. *)
Theorem C1_cleanup_raises_on_directory (data : list Byte.byte) :
  handler (MkRequest (Some (MkUpload (Some ".") data)) None) Demo.w0 =
    (Raise (IsADirectoryError "[Errno 21] Is a directory: 'temp_uploads/.'"),
     MkWorld Demo.fs0
       [Print "Unexpected error: [Errno 21] Is a directory: 'temp_uploads/.'";
        Remove "temp_uploads/."] 0)
  /\
  handler (MkRequest (Some (MkUpload (Some "") data)) None) Demo.w0 =
    (Raise (IsADirectoryError "[Errno 21] Is a directory: 'temp_uploads/'"),
     MkWorld Demo.fs0
       [Print "Unexpected error: [Errno 21] Is a directory: 'temp_uploads/'";
        Remove "temp_uploads/"] 0).
Proof.
  split.
  - apply (handler_raises_on_directory _ (MkUpload (Some ".") data) ".");
      reflexivity.
  - apply (handler_raises_on_directory _ (MkUpload (Some "") data) "");
      reflexivity.
Qed.


(** * Further properties of the handler and its helpers *)

Lemma transcribe_fs p w :
  exists t w', transcribe p w = (Ok t, w') /\ fs w' = fs w.
Proof.
  unfold transcribe_audio. rewrite (bind_ok _ _ _ _ _ (print_eq _ w)).
  unfold try_except, bind at 1.
  pose proof (recognition_world p
                (emit w (Print ("Attempting to transcribe audio from: " +:+ p))))
    as Hw.
  destruct (recognise p _) as [[text|e] w2]; simpl in Hw; subst w2.
  - eexists _, _. split; reflexivity.
  - destruct e; eexists _, _; split; reflexivity.
Qed.

Lemma file_not_dir_same f g p d :
  same_dirs f g -> lookup_path f p = Some (File d) ->
  lookup_path g p <> Some Dir.
Proof.
  intros Hs Hf Hg.
  apply (lookup_path_dir_same _ _ p (same_dirs_sym _ _ Hs)) in Hg.
  rewrite Hf in Hg. discriminate.
Qed.

Lemma not_dir_same f g p :
  same_dirs f g -> lookup_path f p <> Some Dir -> lookup_path g p <> Some Dir.
Proof.
  intros Hs Hf Hg. apply Hf.
  apply (lookup_path_dir_same _ _ p (same_dirs_sym _ _ Hs)). exact Hg.
Qed.

(** A cleanup whose path names no directory returns, and changes no
    directory. *)
Lemma cleanup_path_not_dir label path w :
  (forall p, path = Some p -> lookup_path (fs w) p <> Some Dir) ->
  exists w', cleanup_path label path w = (Ok tt, w') /\
             same_dirs (fs w) (fs w').
Proof.
  intros H. destruct path as [p|].
  2:{ exists w. split; [reflexivity|apply same_dirs_refl]. }
  destruct (lookup_path (fs w) p) as [[d|]|] eqn:Hl.
  - destruct (cleanup_path_file label p w d Hl) as (w' & Hc & _ & Hs & _).
    eauto.
  - exfalso. exact (H p eq_refl Hl).
  - exists w. split; [|apply same_dirs_refl].
    apply cleanup_path_absent. intros p' [= <-] _. exact Hl.
Qed.

(** The [finally] block returns a response as soon as neither of the two
    paths of the frame names a directory. *)
Lemma cleanup_and_respond_total fr w :
  (forall p, temp_file_path fr = Some p -> lookup_path (fs w) p <> Some Dir) ->
  (forall p, audio_file_path fr = Some p -> lookup_path (fs w) p <> Some Dir) ->
  exists w',
    cleanup_and_respond (fr, w) =
      (Ok (MkResponse 200 (transcribed_text fr) (error_message fr)), (fr, w')).
Proof.
  intros Ht Ha. rewrite cleanup_and_respond_eq.
  destruct (cleanup_path_not_dir "Cleaned up temporary file: "
              (temp_file_path fr) w Ht) as (w1 & H1 & Hs).
  rewrite H1.
  destruct (cleanup_path_not_dir "Cleaned up audio file: "
              (audio_file_path fr) w1) as (w2 & H2 & _).
  { intros p Hp. eapply not_dir_same; [exact Hs|]. apply Ha. exact Hp. }
  rewrite H2. eauto.
Qed.

Lemma handler_status req w resp w' :
  handler req w = (Ok resp, w') -> status_code resp = 200%Z.
Proof.
  rewrite handler_eq.
  destruct (try_except (run_pipeline req) on_exception (frame0, w))
    as [r [fr w1]].
  cbn [snd].
  destruct (cleanup_and_respond (fr, w1)) as [r' [fr' w2]] eqn:Hc.
  intros [= -> <-]. apply cleanup_and_respond_ok in Hc. subst. reflexivity.
Qed.

(** Acquisition from an upload that could be saved: afterwards neither
    the save path nor the audio path of the frame names a directory. *)
Lemma acquire_upload_fs (req : request) (u : upload) name w q w1 r fr w4 :
  file req = Some u ->
  filename u = Some name ->
  open_wb (os_path_join UPLOAD_DIR name) w = (Ok q, w1) ->
  acquire_audio req (frame0, w) = (r, (fr, w4)) ->
  (forall p, temp_file_path fr = Some p -> lookup_path (fs w4) p <> Some Dir)
  /\ (forall p, audio_file_path fr = Some p ->
                lookup_path (fs w4) p <> Some Dir).
Proof.
  intros Hf Hn Ho. set (p := os_path_join UPLOAD_DIR name) in *.
  destruct (persist_upload_ok u name frame0 w q w1 Hn Ho)
    as (w2 & Hsave & Hs & Hl & _).
  fold p in Hsave, Hl.
  unfold acquire. rewrite Hf. rewrite (bind_ok _ _ _ _ _ Hsave).
  unfold bind, lift, update. cbn [fst snd]. rewrite print_eq. cbn [fst snd].
  destruct (convert_spec p (emit w2 (Print ("Uploaded file saved to: " +:+ p))))
    as (a & w3 & Hc & Hs3 & _ & Hr).
  rewrite Hc. cbn [fst snd].
  assert (Hp3 : lookup_path (fs w3) p <> Some Dir)
    by (eapply file_not_dir_same; [exact Hs3|exact Hl]).
  destruct (require_path_spec a "Could not convert file to audio."
              (set_audio_file_path a (set_temp_file_path (Some p) frame0), w3))
    as [(o & -> & Ht & Hreq)|[Ht Hreq]]; rewrite Hreq.
  - rewrite print_eq. intros [= <- <- <-]. cbn [fs emit]. split.
    + intros p' [= <-]. exact Hp3.
    + intros p' [= <-]. destruct Hr as (_ & (d & Hd) & _).
      rewrite Hd. discriminate.
  - intros [= <- <- <-]. split.
    + intros p' [= <-]. exact Hp3.
    + intros p' Hp'. cbn [audio_file_path set_audio_file_path] in Hp'.
      subst a. unfold truthy_opt in Ht. unfold lookup_path, resolve.
      rewrite Ht. discriminate.
Qed.

(** X8: an upload that can be written at its save path is always answered.
    Whatever the codec and the recogniser do, the handler returns a
    response with status 200, and afterwards the save path names nothing. *)
Theorem saved_upload_always_answered
    (req : request) (u : upload) (name : string) (w : world) :
  file req = Some u ->
  filename u = Some name ->
  (exists q w1, open_wb (os_path_join UPLOAD_DIR name) w = (Ok q, w1)) ->
  exists resp w',
    handler req w = (Ok resp, w') /\ status_code resp = 200%Z /\
    lookup_path (fs w') (os_path_join UPLOAD_DIR name) = None.
Proof.
  intros Hf Hn (q & w1 & Ho).
  assert (Hret : exists resp w', handler req w = (Ok resp, w')).
  { rewrite handler_eq. unfold try_except, pipeline.
    destruct (acquire_audio req (frame0, w)) as [[a|e] [fr1 w4]] eqn:Hacq;
      destruct (acquire_upload_fs req u name w q w1 _ _ _ Hf Hn Ho Hacq)
        as [Htmp Haud].
    - rewrite (bind_ok _ _ _ _ _ Hacq).
      unfold bind at 1, lift at 1. cbn [fst snd]. rewrite print_eq.
      destruct (transcribe_fs a
                  (emit w4 (Print ("Starting transcription for: " +:+ a))))
        as (t & w5 & Htr & Hfs5).
      unfold bind, lift, update. cbn [fst snd]. rewrite Htr. cbn [fst snd].
      rewrite print_eq. cbn [fst snd].
      match goal with
      | |- context [cleanup_and_respond (?fr, ?w0)] =>
          destruct (cleanup_and_respond_total fr w0) as (w6 & Hcl)
      end.
      + intros p' Hp'. cbn [fs emit]. rewrite Hfs5. apply Htmp. exact Hp'.
      + intros p' Hp'. cbn [fs emit]. rewrite Hfs5. apply Haud. exact Hp'.
      + rewrite Hcl. eauto.
    - rewrite (bind_raise _ _ _ _ _ Hacq). unfold on_exception.
      destruct e; unfold bind, update, lift; cbn [fst snd];
        rewrite print_eq; cbn [fst snd];
        match goal with
        | |- context [cleanup_and_respond (?fr, ?w0)] =>
            destruct (cleanup_and_respond_total fr w0) as (w6 & Hcl);
              [exact Htmp|exact Haud|rewrite Hcl; eauto]
        end. }
  destruct Hret as (resp & w' & Hh). exists resp, w'.
  split; [exact Hh|]. split; [eapply handler_status; exact Hh|].
  eapply (proj1 (handler_returns_clean req w resp w' Hh)); eassumption.
Qed.


(** X9: a file upload takes precedence.  When a file is uploaded, the
    video URL and the downloader play no part: the handler behaves the same
    for any other URL (or none) and any other downloader. *)
Theorem upload_takes_precedence
    (info' : Type) (ydl_extract_info' : string -> fsys -> fsys * result info')
    (ydl_prepare_filename' : info' -> string)
    (u : upload) (url url' : option string) (w : world) :
  handler (MkRequest (Some u) url) w =
  transcribe_audio_video audio decode encode_wav
    info' ydl_extract_info' ydl_prepare_filename'
    audio_data sr_record recognize_google (MkRequest (Some u) url') w.
Proof. reflexivity. Qed.

Lemma from_file_ok p fmt w a w' :
  from_file audio decode p fmt w = (Ok a, w') ->
  w' = w /\ exists src, lookup_path (fs w) p = Some (File src) /\
                        decode fmt src = Ok a.
Proof.
  unfold from_file, bind, read_file, lift_result.
  destruct (lookup_path (fs w) p) as [[src|]|]; try discriminate.
  destruct (decode fmt src) eqn:Hd; try discriminate.
  intros [= <- <-]. eauto.
Qed.

Lemma convert_full_spec (p : string) (w : world) :
  exists r w',
    convert p w = (Ok r, w') /\ same_dirs (fs w) (fs w') /\
    match r with
    | None => fs w' = fs w
    | Some o =>
        o = output_wav_path p /\
        str_in (file_extension p) (audio_formats ++ video_formats) = true /\
        exists src a,
          lookup_path (fs w) p = Some (File src) /\
          decode (slice_from 1 (file_extension p)) src = Ok a /\
          lookup_path (fs w') o = Some (File (encode_wav a))
    end.
Proof.
  unfold convert_to_wav.
  rewrite (bind_ok _ _ _ _ _ (print_eq _ w)).
  set (w1 := emit w _). unfold try_except.
  assert (Hgo :
    str_in (file_extension p) (audio_formats ++ video_formats) = true ->
    exists r w',
      match
        (let* a := (let* a := from_file audio decode p
                                (slice_from 1 (file_extension p)) in
                    ret (Some a)) in
         match a with
         | Some a0 =>
             export audio encode_wav a0 (output_wav_path p);;
             print ("Successfully converted " +:+ p +:+ " to "
                    +:+ output_wav_path p);;
             ret (Some (output_wav_path p))
         | None => ret None
         end) w1
      with
      | (Ok a, s') => (Ok a, s')
      | (Raise e, s') =>
          (print ("Error converting file " +:+ p +:+ " to WAV: " +:+ exn_str e);;
           ret None) s'
      end = (Ok r, w') /\ same_dirs (fs w) (fs w') /\
      match r with
      | None => fs w' = fs w
      | Some o =>
          o = output_wav_path p /\
          str_in (file_extension p) (audio_formats ++ video_formats) = true /\
          exists src a,
            lookup_path (fs w) p = Some (File src) /\
            decode (slice_from 1 (file_extension p)) src = Ok a /\
            lookup_path (fs w') o = Some (File (encode_wav a))
      end).
  { intros Hext. unfold bind at 1 2.
    destruct (from_file audio decode p _ w1) as [[a|e] w2] eqn:Hff.
    - apply from_file_ok in Hff as (-> & src & Hsrc & Hdec).
      unfold ret at 1. unfold bind at 1. unfold export, bind at 1.
      destruct (open_wb (output_wav_path p) w1) as [[q|e] w2] eqn:Ho.
      + destruct (open_write_ok _ _ _ _ (encode_wav a) Ho)
          as (w3 & Hw3 & _ & Hs & Hl & _).
        rewrite Hw3. eexists (Some _), _. split; [reflexivity|].
        cbn [fs emit]. split; [exact Hs|]. split; [reflexivity|].
        split; [exact Hext|]. eauto.
      + apply open_wb_raises in Ho as [-> _].
        eexists None, _. split; [reflexivity|].
        split; [apply same_dirs_refl|reflexivity].
    - pose proof (proj1 (from_file_spec p (slice_from 1 (file_extension p)) w1))
        as Hw. rewrite Hff in Hw. simpl in Hw. subst w2.
      eexists None, _. split; [reflexivity|].
      split; [apply same_dirs_refl|reflexivity]. }
  assert (Hsplit :
    str_in (file_extension p) (audio_formats ++ video_formats)
    = str_in (file_extension p) audio_formats
      || str_in (file_extension p) video_formats)
    by apply existsb_app.
  destruct (str_in (file_extension p) audio_formats) eqn:Ha;
    [apply Hgo; rewrite Hsplit; reflexivity|].
  destruct (str_in (file_extension p) video_formats) eqn:Hv;
    [apply Hgo; rewrite Hsplit; reflexivity|].
  eexists None, _. split; [reflexivity|].
  split; [apply same_dirs_refl|reflexivity].
Qed.

(** X4: what [convert_to_wav] returns.  It never raises and changes no
    directory.  If it returns a path, the extension of the input is one of
    the nine supported ones, the input is a regular file that the codec
    decoded under the format named by the lower-cased extension without
    its dot, the path is [output_wav_path] of the input, and that path now
    holds the WAV encoding of the decoded audio.  If it returns [None],
    the file system is as before. *)
Theorem convert_to_wav_result (p : string) (w : world) :
  exists r w',
    convert p w = (Ok r, w') /\ same_dirs (fs w) (fs w') /\
    match r with
    | None => fs w' = fs w
    | Some o =>
        o = output_wav_path p /\
        str_in (file_extension p) (audio_formats ++ video_formats) = true /\
        exists src a,
          lookup_path (fs w) p = Some (File src) /\
          decode (slice_from 1 (file_extension p)) src = Ok a /\
          lookup_path (fs w') o = Some (File (encode_wav a))
    end.
Proof. apply convert_full_spec. Qed.



Lemma download_direct
    (url : string) (w : world) (f1 : fsys) (i : info)
    (names : list string) (p : string) :
  let d := ydl_prepare_filename i in
  let w1 := emit (set_fs (emit (emit w
                  (Print ("Starting audio download from URL: " +:+ url)))
                  (Extract url)) f1)
                 (Print ("yt-dlp downloaded file: " +:+ d)) in
  ydl_extract_info url (fs w) = (f1, Ok i) ->
  os_listdir UPLOAD_DIR w1 = (Ok names, w1) ->
  find_wav (os_path_basename (fst (os_path_splitext d))) names = Some p ->
  lookup_path f1 p <> None ->
  download url w =
    (Ok (Some p),
     emit w1 (Print ("Final WAV audio path after download/conversion: "
                     +:+ p))).
Proof.
  intros d w1 Hy Hls Hfind Hex.
  unfold download_audio_from_url.
  rewrite (bind_ok _ _ _ _ _ (print_eq _ w)).
  unfold try_except.
  assert (Hxi : extract_info info ydl_extract_info url
                  (emit w (Print ("Starting audio download from URL: " +:+ url)))
                = (Ok i, set_fs (emit (emit w
                     (Print ("Starting audio download from URL: " +:+ url)))
                     (Extract url)) f1)).
  { unfold extract_info. cbn [fs emit]. rewrite Hy. reflexivity. }
  rewrite (bind_ok _ _ _ _ _ Hxi).
  fold d. rewrite (bind_ok _ _ _ _ _ (print_eq _ _)). fold w1.
  rewrite (bind_ok _ _ _ _ _ Hls). rewrite Hfind.
  assert (Ht : truthy p = true).
  { destruct (lookup_path f1 p) eqn:Hl; [|contradiction].
    unfold lookup_path in Hl. destruct (resolve f1 p) eqn:Hr; [|discriminate].
    eapply resolve_truthy; eassumption. }
  rewrite Ht. unfold bind at 1, os_path_exists. change (fs w1) with f1.
  rewrite bool_decide_eq_true_2
    by (destruct (lookup_path f1 p); [eauto|contradiction]).
  cbn [negb]. unfold bind, ret. rewrite print_eq. reflexivity.
Qed.

(** X14: the URL audio acquirer when the [.wav] is found.  If some name in
    the temp directory starts with the downloaded item's base name and
    ends in [.wav], and the path of the first such name exists, that path
    is returned: no conversion is attempted, nothing is removed, and the
    file system is as the downloader left it. *)
Theorem download_returns_direct_wav
    (url : string) (w : world) (f1 : fsys) (i : info)
    (names : list string) (p : string) :
  let d := ydl_prepare_filename i in
  let w1 := emit (set_fs (emit (emit w
                  (Print ("Starting audio download from URL: " +:+ url)))
                  (Extract url)) f1)
                 (Print ("yt-dlp downloaded file: " +:+ d)) in
  ydl_extract_info url (fs w) = (f1, Ok i) ->
  os_listdir UPLOAD_DIR w1 = (Ok names, w1) ->
  find_wav (os_path_basename (fst (os_path_splitext d))) names = Some p ->
  lookup_path f1 p <> None ->
  download url w =
    (Ok (Some p),
     emit w1 (Print ("Final WAV audio path after download/conversion: "
                     +:+ p))).
Proof. apply download_direct. Qed.

(** X16: a download that fails.  For a request with no upload and a URL that
    the validator accepts, if the downloader raises, the response carries
    "Could not download audio from the provided URL." and the handler
    removes nothing: the file system is exactly as the downloader left
    it, partial files included. *)
Theorem failed_download_reported
    (req : request) (u : string) (w : world) (f1 : fsys) (e : exn) :
  file req = None ->
  video_url req = Some u ->
  is_valid_url u = true ->
  ydl_extract_info u (fs w) = (f1, Raise e) ->
  exists w',
    handler req w =
      (Ok (MkResponse 200 ""
             (Some "Could not download audio from the provided URL.")), w')
    /\ fs w' = f1
    /\ (forall p, ~ In (Remove p) (skipn (length (trace w)) (trace w'))).
Proof.
  intros Hf Hu Hv Hy.
  assert (Ht : truthy u = true).
  { unfold truthy. destruct (String.eqb u "") eqn:E; [|reflexivity].
    apply String.eqb_eq in E. subst u. vm_compute in Hv. discriminate. }
  assert (Hacq : acquire_audio req (frame0, w) =
    (Raise (HTTPException 400
              "Could not download audio from the provided URL."),
     (set_audio_file_path None frame0,
      emit (set_fs (emit (emit (emit w
              (Print ("Attempting to download audio from URL: " +:+ u)))
              (Print ("Starting audio download from URL: " +:+ u)))
              (Extract u)) f1)
           (Print ("Error downloading audio from URL " +:+ u +:+ ": "
                   +:+ exn_str e))))).
  { unfold acquire. rewrite Hf, Hu, Ht. unfold bind at 1. rewrite Hv.
    cbn [negb]. unfold ret at 1.
    unfold bind, lift, update. cbn [fst snd]. rewrite print_eq.
    cbn [fst snd]. unfold download_audio_from_url, bind, try_except.
    rewrite print_eq. unfold extract_info. cbn [fs emit]. rewrite Hy.
    rewrite print_eq. reflexivity. }
  rewrite handler_eq. unfold try_except, pipeline.
  rewrite (bind_raise _ _ _ _ _ Hacq).
  unfold on_exception, bind, update, lift. cbn [fst snd]. rewrite print_eq.
  cbn [fst snd]. rewrite cleanup_and_respond_eq.
  cbn [temp_file_path audio_file_path set_error_message set_audio_file_path
       frame0 cleanup_path ret transcribed_text error_message].
  eexists. split; [reflexivity|]. cbn [fs emit set_fs trace].
  split; [reflexivity|].
  intros p. rewrite <- !app_assoc, skipn_app, skipn_all, Nat.sub_diag.
  simpl. intuition discriminate.
Qed.


(** X7: what the emptied save file means for uploads.  For every upload
    that can be written at its save path, the codec is handed an empty
    file; so whenever the codec fails on empty input, the answer is "Could
    not convert file to audio.", whatever bytes were uploaded, and the save
    path names nothing afterwards. *)
Theorem upload_rejected_when_codec_rejects_empty
    (req : request) (u : upload) (name : string) (w : world) (e : exn) :
  let p := os_path_join UPLOAD_DIR name in
  file req = Some u ->
  filename u = Some name ->
  (exists q w1, open_wb p w = (Ok q, w1)) ->
  decode (slice_from 1 (file_extension p)) [] = Raise e ->
  exists w',
    handler req w =
      (Ok (MkResponse 200 "" (Some "Could not convert file to audio.")), w')
    /\ lookup_path (fs w') p = None.
Proof.
  intros p Hf Hn (q & w1 & Ho) Hdec.
  destruct (persist_upload_ok u name frame0 w q w1 Hn Ho)
    as (w2 & Hsave & Hs & Hl & _).
  fold p in Hsave, Hl.
  destruct (convert_full_spec p
              (emit w2 (Print ("Uploaded file saved to: " +:+ p))))
    as (r & w3 & Hc & Hs3 & Hr).
  assert (r = None) as ->.
  { destruct r as [o|]; [|reflexivity].
    destruct Hr as (_ & _ & src & a & Hsrc & Hd & _).
    cbn [fs emit] in Hsrc. rewrite Hl in Hsrc. injection Hsrc as <-.
    rewrite Hdec in Hd. discriminate. }
  cbn [fs emit] in Hr.
  assert (Hacq : acquire_audio req (frame0, w) =
    (Raise (HTTPException 400 "Could not convert file to audio."),
     (set_audio_file_path None (set_temp_file_path (Some p) frame0), w3))).
  { unfold acquire. rewrite Hf.
    rewrite (bind_ok _ _ _ _ _ Hsave).
    unfold bind, lift, update, require_path, raise. cbn [fst snd].
    rewrite print_eq. cbn [fst snd]. rewrite Hc. reflexivity. }
  rewrite handler_eq.
  unfold try_except, pipeline. rewrite (bind_raise _ _ _ _ _ Hacq).
  unfold on_exception, bind, update, lift. cbn [fst snd]. rewrite print_eq.
  cbn [fst snd]. rewrite cleanup_and_respond_eq.
  cbn [temp_file_path audio_file_path set_error_message set_audio_file_path
       set_temp_file_path frame0 transcribed_text error_message].
  assert (Hl3 : lookup_path (fs w3) p = Some (File [])) by (rewrite Hr; exact Hl).
  match goal with
  | |- context [cleanup_path ?l (Some p) ?w0] =>
      destruct (cleanup_path_file l p w0 [] Hl3) as (w4 & Hcl & Hgone & _)
  end.
  rewrite Hcl. cbn [cleanup_path ret]. eexists. split; [reflexivity|exact Hgone].
Qed.

Lemma os_listdir_fs p w :
  os_listdir p w = (fst (os_listdir p (MkWorld (fs w) [] 0)), w).
Proof.
  unfold os_listdir. cbn [fs].
  destruct (resolve (fs w) p) as [q|]; [|reflexivity].
  destruct (node_at (fs w) q) as [[d|]|]; reflexivity.
Qed.

(** X17: a URL request that goes well.  With no upload and a URL that the
    validator accepts, if the downloader returns, the first matching
    [.wav] name in the temp directory is a regular file, and the
    recogniser returns a text for it, then the response has status 200,
    that text and no error message, and the [.wav] is removed. *)
Theorem url_request_transcribed
    (req : request) (u : string) (w : world) (f1 : fsys) (i : info)
    (names : list string) (p : string) (data : list Byte.byte)
    (a : audio_data) (t : string) :
  file req = None ->
  video_url req = Some u ->
  is_valid_url u = true ->
  ydl_extract_info u (fs w) = (f1, Ok i) ->
  fst (os_listdir UPLOAD_DIR (MkWorld f1 [] 0)) = Ok names ->
  find_wav (os_path_basename (fst (os_path_splitext (ydl_prepare_filename i))))
    names = Some p ->
  lookup_path f1 p = Some (File data) ->
  sr_record data = Ok a ->
  recognize_google a = Ok t ->
  exists w',
    handler req w = (Ok (MkResponse 200 t None), w') /\
    lookup_path (fs w') p = None.
Proof.
  intros Hf Hu Hv Hy Hls Hfind Hl Hrec Hgoo.
  assert (Ht : truthy u = true).
  { unfold truthy. destruct (String.eqb u "") eqn:E; [|reflexivity].
    apply String.eqb_eq in E. subst u. vm_compute in Hv. discriminate. }
  assert (Htp : truthy p = true).
  { unfold lookup_path in Hl. destruct (resolve f1 p) eqn:Hr; [|discriminate].
    eapply resolve_truthy; eassumption. }
  set (wa := emit w (Print ("Attempting to download audio from URL: " +:+ u))).
  assert (Hdl := download_direct u wa f1 i names p).
  cbn zeta in Hdl.
  rewrite os_listdir_fs in Hdl. cbn [fs emit set_fs] in Hdl.
  rewrite Hls in Hdl. specialize (Hdl Hy eq_refl Hfind).
  rewrite Hl in Hdl. specialize (Hdl ltac:(discriminate)).
  set (wb := emit _ _) in Hdl.
  assert (Hfsb : fs wb = f1) by reflexivity.
  assert (Hacq : acquire_audio req (frame0, w) =
            (Ok p, (set_audio_file_path (Some p) frame0,
                    emit wb (Print ("Downloaded audio file path from URL: "
                                    +:+ p))))).
  { unfold acquire. rewrite Hf, Hu, Ht. unfold bind at 1. rewrite Hv.
    cbn [negb]. unfold ret at 1.
    unfold bind, lift, update, require_path. cbn [fst snd]. rewrite print_eq.
    cbn [fst snd]. fold wa. rewrite Hdl. cbn [fst snd]. rewrite Htp.
    unfold ret. rewrite print_eq. reflexivity. }
  rewrite handler_eq. unfold try_except, pipeline.
  rewrite (bind_ok _ _ _ _ _ Hacq).
  unfold bind at 1, lift at 1. cbn [fst snd]. rewrite print_eq.
  set (wc := emit (emit wb _) _).
  assert (Htr : exists wd, transcribe p wc = (Ok t, wd) /\ fs wd = f1).
  { unfold transcribe_audio, recognition, try_except, read_file,
      lift_result, bind. rewrite print_eq. cbn [fs emit]. subst wc.
    cbn [fs emit].
    rewrite ?Hfsb, Hl, Hrec, Hgoo. rewrite print_eq. unfold ret.
    eexists. split; [reflexivity|]. cbn [fs emit]. exact Hfsb. }
  destruct Htr as (wd & Htr & Hfsd).
  unfold bind, lift, update. cbn [fst snd]. rewrite Htr. cbn [fst snd].
  rewrite print_eq. cbn [fst snd]. rewrite cleanup_and_respond_eq.
  cbn [temp_file_path audio_file_path set_transcribed_text
       set_audio_file_path frame0 transcribed_text error_message].
  unfold cleanup_path at 1. unfold ret at 1. cbv iota beta.
  assert (Hld : lookup_path
                  (fs (emit wd (Print ("Transcription result: " +:+ t)))) p
                = Some (File data)) by (cbn [fs emit]; rewrite Hfsd; exact Hl).
  match goal with
  | |- context [cleanup_path ?l (Some p) ?w0] =>
      destruct (cleanup_path_file l p w0 data Hld) as (we & Hcl & Hgone & _)
  end.
  rewrite Hcl. eexists. split; [reflexivity|exact Hgone].
Qed.


(** X15: [download_audio_from_url] never raises.  Whatever the downloader,
    the codec and the file system do, every exception of the attempt is
    caught and turned into "no path". *)
Theorem download_never_raises (url : string) (w : world) :
  exists r w', download url w = (Ok r, w') /\
    (forall e f1, ydl_extract_info url (fs w) = (f1, Raise e) ->
                  r = None /\ fs w' = f1).
Proof.
  destruct (download_total url w) as (r & w' & H).
  exists r, w'. split; [exact H|].
  intros e f1 Hy. revert H. unfold download_audio_from_url, bind, try_except.
  rewrite print_eq. unfold extract_info. cbn [fs emit]. rewrite Hy.
  rewrite print_eq. unfold ret. intros [= <- <-]. split; reflexivity.
Qed.


End Properties.

(** * The code on concrete inputs *)

(** ** The URL validator *)

(** The five strings that the specification gives as examples. *)
Lemma is_valid_url_examples :
  is_valid_url "https://example.com/video" = true /\
  is_valid_url "http://localhost:8080/x" = true /\
  is_valid_url "https://203.0.113.5/a?b=1" = true /\
  is_valid_url "not a url" = false /\
  is_valid_url "http//missing-colon" = false.
Proof. vm_compute. repeat split. Qed.

(** C4 (the code at the failing input): [is_valid_url] accepts
    ["http://localhost"] followed by a line feed, although that string is
    not of the URL shape: [$] also matches just before a final newline.  By
    [is_valid_url_spec] a trailing line feed is the only thing it accepts
    beyond the URL shape. *)
Theorem C4_accepts_trailing_newline :
  is_valid_url ("http://localhost" +:+ String LF "") = true /\
  ~ url_shape (chars ("http://localhost" +:+ String LF "")).
Proof.
  split; [vm_compute; reflexivity|].
  intros H. apply url_shape_not_space in H. vm_compute in H. discriminate.
Qed.

(** ** The format normaliser *)

(** C7 (the code at the failing input): for [my.song.mp3] the extension is
    [.mp3] and the base name without it is [my.song], but the output path
    is built from the base name cut at its first dot: the conversion writes
    and returns [temp_uploads/my.wav], not [temp_uploads/my.song.wav]. *)
Theorem C7_dotted_name_truncated :
  output_wav_path "temp_uploads/my.song.mp3" = "temp_uploads/my.wav" /\
  os_path_splitext (os_path_basename "temp_uploads/my.song.mp3")
    = ("my.song", ".mp3") /\
  fst (convert_to_wav (list Byte.byte) Demo.decode Demo.encode_wav
         "temp_uploads/my.song.mp3" Demo.w_song)
    = Ok (Some "temp_uploads/my.wav") /\
  lookup_path (fs (snd (convert_to_wav (list Byte.byte) Demo.decode
                          Demo.encode_wav "temp_uploads/my.song.mp3"
                          Demo.w_song)))
              "temp_uploads/my.song.wav" = None.
Proof. vm_compute. repeat split. Qed.

(** ** Saving the upload *)

(** The save path is the client's file name joined to the temp directory
    as it is; with parent-directory segments it resolves outside it. *)
Lemma save_path_escapes :
  os_path_join UPLOAD_DIR "../evil.wav" = "temp_uploads/../evil.wav" /\
  resolve Demo.fs0 UPLOAD_DIR = Some ["temp_uploads"] /\
  resolve Demo.fs0 (os_path_join UPLOAD_DIR "../evil.wav") = Some ["evil.wav"] /\
  fst (persist_upload (MkUpload (Some "../evil.wav") [Byte.x01])
         (frame0, Demo.w0)) = Ok "temp_uploads/../evil.wav" /\
  nodes (fs (snd (snd (persist_upload (MkUpload (Some "../evil.wav") [Byte.x01])
                         (frame0, Demo.w0))))) !! ["evil.wav"]
    = Some (File []).
Proof. vm_compute. repeat split. Qed.

(** C10 (the code at the failing input): an upload [a.wav] of two bytes.
    After the first pass of the upload block the save path holds the two
    bytes; the handler runs the block a second time, which truncates the
    file and copies from a stream that is already at its end, so the file
    that is handed to the converter is empty. *)
Theorem C10_upload_saved_empty :
  let u := MkUpload (Some "a.wav") [Byte.x01; Byte.x02] in
  lookup_path (fs (snd (snd (save_once u (frame0, Demo.w0)))))
              "temp_uploads/a.wav" = Some (File [Byte.x01; Byte.x02]) /\
  fst (persist_upload u (frame0, Demo.w0)) = Ok "temp_uploads/a.wav" /\
  lookup_path (fs (snd (snd (persist_upload u (frame0, Demo.w0)))))
              "temp_uploads/a.wav" = Some (File []).
Proof. vm_compute. repeat split. Qed.

(** ** The fallback of the URL audio acquirer *)

(** C8 (counterexample): the downloader leaves [temp_uploads/vid.webm] and
    no [.wav].  The conversion of that file fails, for its extension is not
    supported, and the file is removed all the same: "deleted exactly when
    normalization succeeds" does not hold. *)
Lemma C8_counterexample :
  let url := "http://localhost/x" in
  let d := "temp_uploads/vid.webm" in
  let before := fst (Demo.ydl_extract_info url (fs Demo.w0)) in
  let after :=
    fs (snd (download_audio_from_url (list Byte.byte) Demo.decode
               Demo.encode_wav string Demo.ydl_extract_info
               Demo.ydl_prepare_filename url Demo.w0)) in
  let conv :=
    fst (convert_to_wav (list Byte.byte) Demo.decode Demo.encode_wav d
           (MkWorld before [] 0)) in
  find_wav "vid" (entries before ["temp_uploads"]) = None /\
  ~ ((lookup_path before d <> None /\ lookup_path after d = None)
     <-> exists o, conv = Ok (Some o)).
Proof.
  split; [vm_compute; reflexivity|].
  intros [H _].
  assert (Hdel : lookup_path
            (fst (Demo.ydl_extract_info "http://localhost/x" (fs Demo.w0)))
            "temp_uploads/vid.webm" <> None /\
          lookup_path
            (fs (snd (download_audio_from_url (list Byte.byte) Demo.decode
               Demo.encode_wav string Demo.ydl_extract_info
               Demo.ydl_prepare_filename "http://localhost/x" Demo.w0)))
            "temp_uploads/vid.webm" = None).
  { split; vm_compute; [discriminate|reflexivity]. }
  destruct (H Hdel) as [o Ho]. vm_compute in Ho. discriminate.
Qed.

(** ** Calls on paths *)

(** [open(p, "wb")] in a temp directory that holds the regular file
    [f.txt]: the errors for a name followed by a slash, for a regular file
    used as a directory, for a missing directory, for a NUL character and
    for a name of 256 bytes, and the success for a name of 255 bytes. *)
Lemma open_wb_examples :
  let w := MkWorld (set_nodes Demo.fs0
                      (<[["temp_uploads"; "f.txt"] := File [Byte.x01]]>
                         (nodes Demo.fs0))) [] 0 in
  let a255 := string_of_list_ascii (repeat "a"%char 255) in
  fst (open_wb "temp_uploads/new/" w)
    = Raise (IsADirectoryError
               "[Errno 21] Is a directory: 'temp_uploads/new/'") /\
  fst (open_wb "temp_uploads/f.txt/" w)
    = Raise (IsADirectoryError
               "[Errno 21] Is a directory: 'temp_uploads/f.txt/'") /\
  fst (open_wb "temp_uploads/f.txt/b" w)
    = Raise (NotADirectoryError
               "[Errno 20] Not a directory: 'temp_uploads/f.txt/b'") /\
  fst (open_wb "temp_uploads/sub/a.txt" w)
    = Raise (FileNotFoundError
               "[Errno 2] No such file or directory: 'temp_uploads/sub/a.txt'") /\
  fst (open_wb ("temp_uploads/a" +:+ String zero "b") w)
    = Raise (ValueError "embedded null byte") /\
  fst (open_wb ("temp_uploads/a" +:+ a255) w)
    = Raise (OSError ("[Errno 36] File name too long: 'temp_uploads/a"
                      +:+ a255 +:+ "'")) /\
  fst (open_wb ("temp_uploads/" +:+ a255) w)
    = Ok ["temp_uploads"; a255] /\
  fst (open_wb "temp_uploads/f.txt" w) = Ok ["temp_uploads"; "f.txt"].
Proof. vm_compute. repeat split. Qed.

(** ** Uploads that cannot be saved *)


(** ** The status of the responses *)


(** ** Witnesses *)

Lemma C3_no_input_rejected_witness :
  Demo.handler (MkRequest None None) Demo.w0 =
    (Ok (MkResponse 200 "" (Some "No file or video URL provided.")),
     emit Demo.w0 (Print "HTTPException: No file or video URL provided."))
  /\ fs (snd (Demo.handler (MkRequest None None) Demo.w0)) = fs Demo.w0.
Proof.
  unfold Demo.handler. apply C3_no_input_rejected; reflexivity.
Defined.

Lemma C5_invalid_url_short_circuits_witness :
  let req := MkRequest None (Some "not a url") in
  Demo.handler req Demo.w0 =
    (Ok (MkResponse 200 "" (Some "Invalid URL provided.")),
     emit Demo.w0 (Print "HTTPException: Invalid URL provided."))
  /\ (forall url, ~ In (Extract url)
                    (skipn (length (trace Demo.w0))
                           (trace (snd (Demo.handler req Demo.w0)))))
  /\ ~ In (Print ("Starting audio download from URL: " +:+ "not a url"))
          (skipn (length (trace Demo.w0))
                 (trace (snd (Demo.handler req Demo.w0))))
  /\ fs (snd (Demo.handler req Demo.w0)) = fs Demo.w0.
Proof.
  unfold Demo.handler.
  apply (C5_invalid_url_short_circuits _ _ _ _ _ _ _ _ _
           (MkRequest None (Some "not a url")) "not a url" Demo.w0);
    reflexivity.
Defined.


Lemma C8_fallback_removes_download_witness :
  let url := "http://localhost/x" in
  let d := "temp_uploads/vid.webm" in
  exists w',
    fst (download_audio_from_url (list Byte.byte) Demo.decode Demo.encode_wav
           string Demo.ydl_extract_info Demo.ydl_prepare_filename url Demo.w0)
      = Ok None /\
    snd (download_audio_from_url (list Byte.byte) Demo.decode Demo.encode_wav
           string Demo.ydl_extract_info Demo.ydl_prepare_filename url Demo.w0)
      = w' /\
    (forall data, lookup_path (fs w') d <> Some (File data)) /\
    In (Remove d) (trace w').
Proof.
  intros url d.
  destruct (C8_fallback_removes_download (list Byte.byte) Demo.decode
              Demo.encode_wav string Demo.ydl_extract_info
              Demo.ydl_prepare_filename url Demo.w0
              (fst (Demo.ydl_extract_info url (fs Demo.w0)))
              "temp_uploads/vid.webm" ["vid.webm"])
    as (w' & Hrun & Hgone & Hrm).
  - reflexivity.
  - vm_compute. reflexivity.
  - vm_compute. reflexivity.
  - exists w'. rewrite Hrun. split; [vm_compute; reflexivity|].
    split; [reflexivity|]. split; [exact Hgone|].
    apply Hrm. eexists. vm_compute. reflexivity.
Defined.


(** * Further properties *)

(** ** The upload block *)

(** X6: the upload block as the handler runs it.  For every upload whose
    save path can be opened for writing, the block returns
    [os.path.join(UPLOAD_DIR, filename)] and records it in
    [temp_file_path]; the upload stream is left at its end, and the file at
    the save path is empty, whatever the upload held. *)
Theorem upload_block_leaves_empty_file
    (u : upload) (name : string) (fr : frame) (w : world) :
  filename u = Some name ->
  (exists q w1, open_wb (os_path_join UPLOAD_DIR name) w = (Ok q, w1)) ->
  exists w2,
    persist_upload u (fr, w) =
      (Ok (os_path_join UPLOAD_DIR name),
       (set_temp_file_path (Some (os_path_join UPLOAD_DIR name)) fr, w2)) /\
    lookup_path (fs w2) (os_path_join UPLOAD_DIR name) = Some (File []) /\
    upload_pos w2 = length (content u) /\
    trace w2 = trace w.
Proof.
  intros Hn (q & w1 & Ho).
  destruct (persist_upload_ok u name fr w q w1 Hn Ho)
    as (w2 & H & _ & Hl & Ht & Hp).
  exists w2. auto.
Qed.

(** ** The [finally] block *)

Lemma lookup_path_before_delete f q p d :
  is_dir f q = false ->
  lookup_path (set_nodes f (delete q (nodes f))) p = Some (File d) ->
  lookup_path f p = Some (File d).
Proof.
  intros Hd. unfold lookup_path.
  rewrite <- (resolve_same_dirs _ _ p (same_dirs_delete_file f q Hd)).
  destruct (resolve f p) as [q'|]; [|discriminate].
  rewrite node_at_delete by (eapply not_dir_nonroot; eassumption).
  destruct (decide (q = q')); [discriminate|auto].
Qed.

(** One cleanup that returns either does nothing, or removes the regular
    file its path names and prints one line. *)
Lemma cleanup_path_trace label path w w' :
  cleanup_path label path w = (Ok tt, w') ->
  w' = w \/
  exists p d,
    path = Some p /\ lookup_path (fs w) p = Some (File d) /\
    trace w' = trace w ++ [Remove p; Print (label +:+ p)] /\
    lookup_path (fs w') p = None /\
    (forall p' d', lookup_path (fs w') p' = Some (File d') ->
                   lookup_path (fs w) p' = Some (File d')).
Proof.
  unfold cleanup_path. destruct path as [p|]; [|intros [= <-]; auto].
  destruct (truthy p) eqn:Ht; [|intros [= <-]; auto].
  unfold bind at 1, os_path_exists.
  destruct (lookup_path (fs w) p) as [[d|]|] eqn:Hl.
  - rewrite bool_decide_eq_true_2 by eauto.
    unfold lookup_path in Hl.
    destruct (resolve (fs w) p) as [q|] eqn:Hr; [|discriminate].
    rewrite (bind_ok _ _ _ _ _ (os_remove_file p w q d Hr Hl)).
    rewrite print_eq. intros [= <-]. right. exists p, d.
    split; [reflexivity|]. split; [unfold lookup_path; rewrite Hr; exact Hl|].
    cbn [fs emit set_fs trace]. split; [rewrite <- app_assoc; reflexivity|].
    assert (Hd : is_dir (fs w) q = false)
      by (unfold is_dir; rewrite Hl; reflexivity).
    split.
    + pose proof (os_remove_gone p w _ (os_remove_file p w q d Hr Hl)) as G.
      exact G.
    + intros p' d'. apply lookup_path_before_delete. exact Hd.
  - rewrite bool_decide_eq_true_2 by eauto.
    rewrite (bind_raise _ _ _ _ _ (os_remove_dir p w Hl)). discriminate.
  - rewrite bool_decide_eq_false_2 by (intros [x Hx]; discriminate).
    intros [= <-]. auto.
Qed.

(** X12: the [finally] block removes every file at most once.  When it
    returns a response, the [os.remove] calls it made have pairwise
    different arguments, each of them is one of the two paths of the frame
    and named a regular file when the block was entered. *)
Theorem cleanup_removes_each_file_once
    (fr : frame) (w : world) (resp : response) (s' : frame * world) :
  cleanup_and_respond (fr, w) = (Ok resp, s') ->
  exists evs,
    trace (snd s') = trace w ++ evs /\
    List.NoDup (removed_paths evs) /\
    forall p, In p (removed_paths evs) ->
      (temp_file_path fr = Some p \/ audio_file_path fr = Some p) /\
      exists d, lookup_path (fs w) p = Some (File d).
Proof.
  rewrite cleanup_and_respond_eq.
  destruct (cleanup_path _ (temp_file_path fr) w) as [[[]|e] w1] eqn:H1;
    [|discriminate].
  destruct (cleanup_path _ (audio_file_path fr) w1) as [[[]|e] w2] eqn:H2;
    [|discriminate].
  intros [= _ <-]. cbn [snd].
  apply cleanup_path_trace in H1, H2.
  destruct H1 as [->|(p1 & d1 & Hp1 & Hl1 & Ht1 & Hg1 & Hb1)];
    destruct H2 as [->|(p2 & d2 & Hp2 & Hl2 & Ht2 & Hg2 & Hb2)].
  - exists []. rewrite app_nil_r. split; [reflexivity|].
    split; [apply List.NoDup_nil|]. intros p [].
  - exists [Remove p2; Print ("Cleaned up audio file: " +:+ p2)].
    split; [exact Ht2|]. split.
    + simpl. apply List.NoDup_cons; [intros []|apply List.NoDup_nil].
    + intros p [<-|[]]. split; [right; exact Hp2|eauto].
  - exists [Remove p1; Print ("Cleaned up temporary file: " +:+ p1)].
    split; [exact Ht1|]. split.
    + simpl. apply List.NoDup_cons; [intros []|apply List.NoDup_nil].
    + intros p [<-|[]]. split; [left; exact Hp1|eauto].
  - exists [Remove p1; Print ("Cleaned up temporary file: " +:+ p1);
            Remove p2; Print ("Cleaned up audio file: " +:+ p2)].
    split; [rewrite Ht2, Ht1, <- app_assoc; reflexivity|]. split.
    + simpl. apply List.NoDup_cons.
      * intros [E|[]]. subst p2. rewrite Hg1 in Hl2. discriminate.
      * apply List.NoDup_cons; [intros []|apply List.NoDup_nil].
    + intros p [<-|[<-|[]]].
      * split; [left; exact Hp1|eauto].
      * split; [right; exact Hp2|]. exists d2. apply Hb1. exact Hl2.
Qed.

(** ** Start-up *)

(** X18: after module start-up in a working directory that exists, the temp
    directory path names something; it is a directory whenever nothing of
    that name was there before; and no node that was there is lost or
    changed. *)
Theorem startup_creates_upload_dir
    (d : list string) (m : gmap (list string) node) :
  is_dir (MkFs m d) d = true ->
  lookup_path (fs_at_startup d m) UPLOAD_DIR <> None /\
  (lookup_path (MkFs m d) UPLOAD_DIR = None ->
   lookup_path (fs_at_startup d m) UPLOAD_DIR = Some Dir) /\
  (forall k n, m !! k = Some n -> nodes (fs_at_startup d m) !! k = Some n).
Proof.
  intros Hd. unfold fs_at_startup.
  assert (Hres : forall m', is_dir (MkFs m' d) d = true ->
            resolve (MkFs m' d) UPLOAD_DIR = Some (d ++ [UPLOAD_DIR])).
  { intros m' Hd'. unfold resolve. cbn [cwd].
    change (truthy UPLOAD_DIR) with true.
    change (startswith UPLOAD_DIR "/") with false.
    change (split_on "/" UPLOAD_DIR) with [UPLOAD_DIR].
    cbn [walk]. rewrite Hd'. reflexivity. }
  destruct (lookup_path (MkFs m d) UPLOAD_DIR) as [n|] eqn:Hl.
  - rewrite Hl. split; [discriminate|]. split; [discriminate|auto].
  - assert (Hnone : m !! (d ++ [UPLOAD_DIR]) = None).
    { unfold lookup_path in Hl. rewrite (Hres m Hd) in Hl.
      destruct d; exact Hl. }
    assert (Hd' : is_dir (MkFs (<[d ++ [UPLOAD_DIR] := Dir]> m) d) d = true).
    { unfold is_dir in *. destruct d as [|a d]; [reflexivity|].
      cbn [node_at nodes] in *. rewrite lookup_insert_ne; [exact Hd|].
      intros E. apply (f_equal (@length string)) in E.
      rewrite length_app in E. simpl in E. lia. }
    assert (Hnew : lookup_path (MkFs (<[d ++ [UPLOAD_DIR] := Dir]> m) d)
                     UPLOAD_DIR = Some Dir).
    { unfold lookup_path. rewrite (Hres _ Hd').
      destruct d; cbn [node_at nodes app]; apply lookup_insert_eq. }
    rewrite Hnew. split; [discriminate|]. split; [reflexivity|].
    intros k n Hk. cbn [nodes]. rewrite lookup_insert_ne; [exact Hk|].
    intros <-. rewrite Hnone in Hk. discriminate.
Qed.

(** ** The URL validator *)

(** X1: what [is_valid_url] accepts, on strings of code points below 256:
    exactly the strings of the URL shape (scheme http, https, ftp or ftps
    in any case, [://], a host that is a domain name, [localhost] or four
    groups of one to three digits, an optional port, an optional path or
    query without white space), and those strings followed by one line
    feed. *)
Theorem validator_accepts_exactly (u : string) :
  is_valid_url u = true <->
  url_shape (chars u) \/ exists s, chars u = s ++ [LF] /\ url_shape s.
Proof. apply is_valid_url_spec. Qed.

(** X2: a string that [is_valid_url] accepts holds no white space, except
    for one line feed at its very end. *)
Theorem validator_rejects_white_space (u : string) :
  is_valid_url u = true ->
  exists s, (chars u = s \/ chars u = s ++ [LF]) /\ all_of not_space s.
Proof.
  intros H. apply is_valid_url_spec in H as [H|(s & E & H)].
  - exists (chars u). split; [left; reflexivity|].
    apply url_shape_not_space. exact H.
  - exists s. split; [right; exact E|]. apply url_shape_not_space. exact H.
Qed.

Section CaseBlind.

Variable ma : list ascii -> (list ascii -> bool) -> bool.
Hypothesis ma_ext :
  forall s k1 k2, (forall x, k1 x = k2 x) -> ma s k1 = ma s k2.
Hypothesis ma_lower :
  forall s k, ma (map chr_lower s) k = ma s (fun x => k (map chr_lower x)).

Lemma rep_loop_ext hi :
  forall lo s k1 k2,
    (forall x, k1 x = k2 x) -> rep_loop ma lo hi s k1 = rep_loop ma lo hi s k2.
Proof.
  induction hi as [|hi IH]; intros lo s k1 k2 E; simpl.
  - rewrite E. reflexivity.
  - rewrite (ma_ext s _ (fun s' => rep_loop ma (pred lo) hi s' k2))
      by (intros x; apply IH; exact E).
    rewrite E. reflexivity.
Qed.

Lemma star_loop_ext fuel :
  forall s k1 k2,
    (forall x, k1 x = k2 x) -> star_loop ma fuel s k1 = star_loop ma fuel s k2.
Proof.
  induction fuel as [|fuel IH]; intros s k1 k2 E; simpl.
  - apply E.
  - rewrite (ma_ext s _ (fun s' => if (length s' <? length s)%nat
                                  then star_loop ma fuel s' k2 else false)).
    + rewrite E. reflexivity.
    + intros x. destruct (length x <? length s)%nat; [|reflexivity].
      apply IH. exact E.
Qed.

Lemma rep_loop_lower hi :
  forall lo s k,
    rep_loop ma lo hi (map chr_lower s) k =
    rep_loop ma lo hi s (fun x => k (map chr_lower x)).
Proof.
  induction hi as [|hi IH]; intros lo s k; simpl; [reflexivity|].
  rewrite ma_lower.
  rewrite (ma_ext s _ (fun s' => rep_loop ma (pred lo) hi s'
                                  (fun x => k (map chr_lower x))))
    by (intros x; apply IH).
  reflexivity.
Qed.

Lemma star_loop_lower fuel :
  forall s k,
    star_loop ma fuel (map chr_lower s) k =
    star_loop ma fuel s (fun x => k (map chr_lower x)).
Proof.
  induction fuel as [|fuel IH]; intros s k; simpl; [reflexivity|].
  rewrite ma_lower.
  rewrite (ma_ext s _ (fun s' => if (length s' <? length s)%nat
                                  then star_loop ma fuel s'
                                         (fun x => k (map chr_lower x))
                                  else false)).
  - reflexivity.
  - intros x. rewrite !length_map.
    destruct (length x <? length s)%nat; [apply IH|reflexivity].
Qed.

End CaseBlind.

Lemma run_ext r :
  forall s k1 k2, (forall x, k1 x = k2 x) -> run r s k1 = run r s k2.
Proof.
  induction r as [|p|a IHa b IHb|a IHa b IHb|a IHa|a IHa lo hi];
    intros s k1 k2 E; simpl.
  - apply E.
  - destruct s as [|c s]; [reflexivity|]. rewrite E. reflexivity.
  - apply IHa. intros x. apply IHb. exact E.
  - rewrite (IHa s k1 k2 E), (IHb s k1 k2 E). reflexivity.
  - apply star_loop_ext; assumption.
  - apply rep_loop_ext; assumption.
Qed.

(** Matching a case-blind pattern on the lower-cased input is matching it
    on the input. *)
Lemma run_lower r :
  case_blind r ->
  forall s k,
    run r (map chr_lower s) k = run r s (fun x => k (map chr_lower x)).
Proof.
  induction r as [|p|a IHa b IHb|a IHa b IHb|a IHa|a IHa lo hi];
    simpl; intros Hcb s k.
  - reflexivity.
  - destruct s as [|c s]; [reflexivity|]. simpl. rewrite Hcb. reflexivity.
  - destruct Hcb as [Ha Hb]. rewrite (IHa Ha).
    apply run_ext. intros x. apply (IHb Hb).
  - destruct Hcb as [Ha Hb]. rewrite (IHa Ha), (IHb Hb). reflexivity.
  - rewrite length_map.
    apply star_loop_lower; [apply run_ext|apply (IHa Hcb)].
  - apply rep_loop_lower; [apply run_ext|apply (IHa Hcb)].
Qed.

Lemma chr_lower_idem c : chr_lower (chr_lower c) = chr_lower c.
Proof. destruct c as [[] [] [] [] [] [] [] []]; reflexivity. Qed.

Lemma case_blind_lit_i x : case_blind (lit_i x).
Proof.
  induction x as [|c x IH]; simpl; [exact I|]. split; [|exact IH].
  intros c0. rewrite chr_lower_idem. reflexivity.
Qed.

Lemma case_blind_url_regex : case_blind url_regex.
Proof.
  assert (Hal : forall c, is_alpha (chr_lower c) = is_alpha c)
    by (intros c; destruct c as [[] [] [] [] [] [] [] []]; reflexivity).
  assert (Han : forall c, is_alnum (chr_lower c) = is_alnum c)
    by (intros c; destruct c as [[] [] [] [] [] [] [] []]; reflexivity).
  assert (Hh : forall c, is_alnum (chr_lower c) || Ascii.eqb (chr_lower c) "-"
                         = is_alnum c || Ascii.eqb c "-")
    by (intros c; destruct c as [[] [] [] [] [] [] [] []]; reflexivity).
  assert (Hd : forall c, is_digit (chr_lower c) = is_digit c)
    by (intros c; destruct c as [[] [] [] [] [] [] [] []]; reflexivity).
  assert (Hs : forall c, negb (is_space (chr_lower c)) = negb (is_space c))
    by (intros c; destruct c as [[] [] [] [] [] [] [] []]; reflexivity).
  assert (Hq : forall c, Ascii.eqb (chr_lower c) "/" || Ascii.eqb (chr_lower c) "?"
                         = Ascii.eqb c "/" || Ascii.eqb c "?")
    by (intros c; destruct c as [[] [] [] [] [] [] [] []]; reflexivity).
  assert (Hdot : forall c, Ascii.eqb (chr_lower c) "." = Ascii.eqb c ".")
    by (intros c; destruct c as [[] [] [] [] [] [] [] []]; reflexivity).
  assert (Hcol : forall c, Ascii.eqb (chr_lower c) ":" = Ascii.eqb c ":")
    by (intros c; destruct c as [[] [] [] [] [] [] [] []]; reflexivity).
  assert (Hsl : forall c, Ascii.eqb (chr_lower c) "/" = Ascii.eqb c "/")
    by (intros c; destruct c as [[] [] [] [] [] [] [] []]; reflexivity).
  assert (Hi : forall x c, Ascii.eqb (chr_lower (chr_lower c)) (chr_lower x)
                           = Ascii.eqb (chr_lower c) (chr_lower x))
    by (intros x c; rewrite chr_lower_idem; reflexivity).
  unfold url_regex, re_scheme, re_host, re_domain, re_label_dot, re_tld,
    re_ip, re_port, re_tail, Plus, AtLeast, Opt, cls_AZ, cls_AZ09, cls_AZ09h,
    cls_d, cls_S, cls_slash_q, dot, chr_of, chr_i.
  cbn [case_blind lit_i].
  repeat split; try assumption; try (intros c; apply Hi).
Qed.

Lemma chars_lower u : chars (lower u) = map chr_lower (chars u).
Proof.
  unfold chars. induction u as [|c u IH]; [reflexivity|].
  simpl. rewrite IH. reflexivity.
Qed.

Lemma at_dollar_lower s : at_dollar (map chr_lower s) = at_dollar s.
Proof.
  destruct s as [|c [|c' s]]; try reflexivity. simpl.
  destruct c as [[] [] [] [] [] [] [] []]; reflexivity.
Qed.

(** X3: on strings of code points below 256 the validator is blind to
    case.  [is_valid_url] gives the same answer on such a string and on its
    lower-case form, hence on any two such strings with the same lower-case
    form.  (From code point 256 on Python's [re] and [str.lower] part
    ways; those strings are outside this development.) *)
Theorem validator_ignores_case (u v : string) :
  is_valid_url (lower u) = is_valid_url u /\
  (lower u = lower v -> is_valid_url u = is_valid_url v).
Proof.
  assert (H : forall x, is_valid_url (lower x) = is_valid_url x).
  { intros x. unfold is_valid_url, re_match. rewrite chars_lower.
    rewrite (run_lower url_regex case_blind_url_regex).
    apply run_ext. apply at_dollar_lower. }
  split; [apply H|]. intros E. rewrite <- (H u), <- (H v), E. reflexivity.
Qed.

(** ** The output path of the format normaliser *)

Lemma free_of_cons c a s :
  free_of c (String a s) <-> a <> c /\ free_of c s.
Proof.
  unfold free_of, chars. simpl. rewrite andb_true_iff, negb_true_iff.
  rewrite Ascii.eqb_neq. reflexivity.
Qed.

Lemma free_of_nil c : free_of c "".
Proof. reflexivity. Qed.

Lemma free_of_append c s t :
  free_of c s -> free_of c t -> free_of c (s +:+ t).
Proof.
  induction s as [|a s IH]; simpl; [auto|].
  intros Hs Ht. apply free_of_cons in Hs as [Ha Hs].
  apply free_of_cons. auto.
Qed.

(** The first piece of a split holds no separator, and no character that
    the string did not hold. *)
Lemma split_hd_free c s : free_of c (hd "" (split_on c s)).
Proof.
  induction s as [|a s IH]; simpl; [reflexivity|].
  destruct (Ascii.eqb a c) eqn:E; [reflexivity|].
  apply Ascii.eqb_neq in E.
  destruct (split_on c s) as [|h t]; simpl in *; apply free_of_cons;
    (split; [assumption|first [assumption|reflexivity]]).
Qed.

Lemma split_hd_keeps x c s :
  free_of x s -> free_of x (hd "" (split_on c s)).
Proof.
  induction s as [|a s IH]; simpl; [auto|].
  intros H. apply free_of_cons in H as [Ha Hs].
  destruct (Ascii.eqb a c); [reflexivity|].
  specialize (IH Hs).
  destruct (split_on c s) as [|h t]; simpl in *; apply free_of_cons;
    (split; [assumption|first [assumption|reflexivity]]).
Qed.

Lemma split_on_free c s : free_of c s -> split_on c s = [s].
Proof.
  induction s as [|a s IH]; simpl; [reflexivity|].
  intros H. apply free_of_cons in H as [Ha Hs].
  apply Ascii.eqb_neq in Ha. rewrite Ha, (IH Hs). reflexivity.
Qed.

Lemma substring_all s : substring 0 (String.length s) s = s.
Proof. induction s as [|a s IH]; simpl; [reflexivity|]. rewrite IH. reflexivity. Qed.

(** What follows the last occurrence of a character holds none. *)
Lemma rfind_from_free c s :
  forall i, (0 <= i)%Z ->
    let j := rfind_from i c s in
    (j = (-1)%Z \/ (i <= j)%Z) /\
    free_of c (substring (Z.to_nat (j - i + 1))
                         (String.length s - Z.to_nat (j - i + 1)) s).
Proof.
  induction s as [|a s IH]; intros i Hi; cbn zeta.
  - simpl. split; [left; reflexivity|].
    destruct (Z.to_nat (-1 - i + 1)); reflexivity.
  - simpl rfind_from.
    destruct (IH (i + 1)%Z ltac:(lia)) as [Hj Hfree].
    cbn zeta in Hj, Hfree.
    destruct (0 <=? rfind_from (i + 1) c s)%Z eqn:E.
    + apply Z.leb_le in E. split; [right; lia|].
      replace (Z.to_nat (rfind_from (i + 1) c s - i + 1))
        with (S (Z.to_nat (rfind_from (i + 1) c s - (i + 1) + 1))) by lia.
      simpl. exact Hfree.
    + apply Z.leb_gt in E.
      assert (Hm : rfind_from (i + 1) c s = (-1)%Z) by lia.
      rewrite Hm in Hfree.
      replace (Z.to_nat (-1 - (i + 1) + 1)) with 0 in Hfree by lia.
      rewrite Nat.sub_0_r, substring_all in Hfree.
      destruct (Ascii.eqb a c) eqn:Ea.
      * split; [right; lia|].
        replace (Z.to_nat (i - i + 1)) with 1 by lia.
        simpl. rewrite Nat.sub_0_r, substring_all. exact Hfree.
      * split; [left; reflexivity|].
        replace (Z.to_nat (-1 - i + 1)) with 0 by lia.
        simpl. rewrite substring_all. apply free_of_cons.
        apply Ascii.eqb_neq in Ea. auto.
Qed.

Lemma basename_free p : free_of "/" (os_path_basename p).
Proof.
  unfold os_path_basename, slice_from, rfind.
  pose proof (rfind_from_free "/" p 0 ltac:(lia)) as [_ H].
  cbn zeta in H. rewrite Z.sub_0_r in H. exact H.
Qed.

Lemma wav_name_proper stem :
  free_of "." stem ->
  String.eqb (stem +:+ ".wav") "" = false /\
  String.eqb (stem +:+ ".wav") "." = false /\
  String.eqb (stem +:+ ".wav") ".." = false.
Proof.
  destruct stem as [|a stem]; [intros _; repeat split|].
  intros H. apply free_of_cons in H as [Ha _].
  repeat split; apply String.eqb_neq; intros E; simpl in E;
    inversion E; subst; contradiction.
Qed.

Lemma split_upload_name n :
  free_of "/" n -> split_on "/" ("temp_uploads/" +:+ n) = ["temp_uploads"; n].
Proof.
  intros H. simpl. change ("" +:+ n) with n.
  rewrite (split_on_free _ _ H). reflexivity.
Qed.

(** X5: where [convert_to_wav] writes.  Whatever the input path is, the
    output path is [temp_uploads/], then a stem that holds neither a slash
    nor a dot (the base name of the input up to its first dot), then
    [.wav]; and wherever the temp directory exists, this path resolves to
    an entry directly inside it.  The output of a conversion can thus not
    leave the temp directory, even when the input path does. *)
Theorem wav_output_stays_in_upload_dir (p : string) (f : fsys) :
  exists stem,
    stem = hd "" (split_on "." (os_path_basename p)) /\
    free_of "/" stem /\ free_of "." stem /\
    output_wav_path p = "temp_uploads/" +:+ stem +:+ ".wav" /\
    (is_dir f (cwd f) = true ->
     is_dir f (cwd f ++ [UPLOAD_DIR]) = true ->
     resolve f (output_wav_path p)
       = Some (cwd f ++ [UPLOAD_DIR; stem +:+ ".wav"])).
Proof.
  set (stem := hd "" (split_on "." (os_path_basename p))).
  assert (Hs : free_of "/" stem)
    by (apply split_hd_keeps, basename_free).
  assert (Hd : free_of "." stem) by apply split_hd_free.
  assert (Hout : output_wav_path p = "temp_uploads/" +:+ stem +:+ ".wav").
  { unfold output_wav_path, os_path_join. fold stem.
    assert (Hp : startswith (stem +:+ ".wav") "/" = false).
    { unfold startswith. destruct stem as [|a r]; [reflexivity|].
      apply free_of_cons in Hs as [Ha _]. apply not_true_is_false.
      intros H. apply prefix_correct in H. simpl in H.
      injection H as H _. contradiction. }
    rewrite Hp. reflexivity. }
  exists stem. split; [reflexivity|]. split; [exact Hs|].
  split; [exact Hd|]. split; [exact Hout|].
  intros Hc Hu. rewrite Hout. unfold resolve.
  change (truthy ("temp_uploads/" +:+ stem +:+ ".wav")) with true.
  change (startswith ("temp_uploads/" +:+ stem +:+ ".wav") "/") with false.
  assert (Hsplit : split_on "/" ("temp_uploads/" +:+ stem +:+ ".wav")
                   = ["temp_uploads"; stem +:+ ".wav"]).
  { apply split_upload_name, free_of_append; [exact Hs|reflexivity]. }
  rewrite Hsplit. cbn [walk]. rewrite Hc.
  change (String.eqb "temp_uploads" "" || String.eqb "temp_uploads" ".")
    with false.
  change (String.eqb "temp_uploads" "..") with false. cbv iota.
  change "temp_uploads" with UPLOAD_DIR. rewrite Hu.
  destruct (wav_name_proper stem Hd) as (E1 & E2 & E3).
  rewrite E1, E2, E3. cbn [orb]. rewrite <- app_assoc. reflexivity.
Qed.

(** ** Witnesses of the further properties *)

Lemma saved_upload_always_answered_witness :
  let req := MkRequest (Some (MkUpload (Some "a.wav") [Byte.x01; Byte.x02]))
               None in
  exists resp w',
    Demo.handler req Demo.w0 = (Ok resp, w') /\ status_code resp = 200%Z /\
    lookup_path (fs w') (os_path_join UPLOAD_DIR "a.wav") = None.
Proof.
  intros req. unfold Demo.handler.
  apply (saved_upload_always_answered _ _ _ _ _ _ _ _ _ req
           (MkUpload (Some "a.wav") [Byte.x01; Byte.x02]) "a.wav" Demo.w0);
    try reflexivity.
  eexists _, _. vm_compute. reflexivity.
Defined.



Lemma download_returns_direct_wav_witness :
  fst (download_audio_from_url (list Byte.byte) Demo.decode Demo.encode_wav
         string Demo.ydl_extract_wav Demo.ydl_prepare_filename
         "http://localhost/x" Demo.w0)
    = Ok (Some "temp_uploads/vid.wav").
Proof.
  rewrite (download_returns_direct_wav (list Byte.byte) Demo.decode
             Demo.encode_wav string Demo.ydl_extract_wav
             Demo.ydl_prepare_filename "http://localhost/x" Demo.w0
             (fst (Demo.ydl_extract_wav "http://localhost/x" (fs Demo.w0)))
             "temp_uploads/vid.webm" ["vid.wav"] "temp_uploads/vid.wav").
  - reflexivity.
  - reflexivity.
  - vm_compute. reflexivity.
  - vm_compute. reflexivity.
  - vm_compute. discriminate.
Defined.

Lemma failed_download_reported_witness :
  let req := MkRequest None (Some "http://localhost/x") in
  exists w',
    Demo.handler_fail req Demo.w0 =
      (Ok (MkResponse 200 ""
             (Some "Could not download audio from the provided URL.")), w')
    /\ fs w' = fst (Demo.ydl_extract_fail "http://localhost/x" (fs Demo.w0))
    /\ (forall p, ~ In (Remove p)
                    (skipn (length (trace Demo.w0)) (trace w'))).
Proof.
  intros req. unfold Demo.handler_fail.
  apply (failed_download_reported _ _ _ _ _ _ _ _ _ req "http://localhost/x"
           Demo.w0 _ (LibraryError "ERROR: unable to download video data"));
    reflexivity.
Defined.

Lemma upload_block_leaves_empty_file_witness :
  let u := MkUpload (Some "a.wav") [Byte.x01; Byte.x02] in
  exists w2,
    persist_upload u (frame0, Demo.w0) =
      (Ok (os_path_join UPLOAD_DIR "a.wav"),
       (set_temp_file_path (Some (os_path_join UPLOAD_DIR "a.wav")) frame0,
        w2)) /\
    lookup_path (fs w2) (os_path_join UPLOAD_DIR "a.wav") = Some (File []) /\
    upload_pos w2 = length (content u) /\
    trace w2 = trace Demo.w0.
Proof.
  intros u. apply upload_block_leaves_empty_file; [reflexivity|].
  eexists _, _. vm_compute. reflexivity.
Defined.

Lemma cleanup_removes_each_file_once_witness :
  let fr := set_temp_file_path (Some "temp_uploads/vid.webm") frame0 in
  let w := MkWorld (fst (Demo.ydl_extract_info "" Demo.fs0)) [] 0 in
  exists evs,
    trace (snd (snd (cleanup_and_respond (fr, w)))) = trace w ++ evs /\
    List.NoDup (removed_paths evs) /\
    forall p, In p (removed_paths evs) ->
      (temp_file_path fr = Some p \/ audio_file_path fr = Some p) /\
      exists d, lookup_path (fs w) p = Some (File d).
Proof.
  intros fr w.
  apply (cleanup_removes_each_file_once fr w (MkResponse 200 "" None)
           (snd (cleanup_and_respond (fr, w)))).
  vm_compute. reflexivity.
Defined.

Lemma startup_creates_upload_dir_witness :
  lookup_path (fs_at_startup [] ∅) UPLOAD_DIR <> None /\
  (lookup_path (MkFs ∅ []) UPLOAD_DIR = None ->
   lookup_path (fs_at_startup [] ∅) UPLOAD_DIR = Some Dir) /\
  (forall k n, (∅ : gmap (list string) node) !! k = Some n ->
               nodes (fs_at_startup [] ∅) !! k = Some n).
Proof. apply startup_creates_upload_dir. reflexivity. Defined.

Lemma validator_rejects_white_space_witness :
  exists s, (chars "http://localhost/x" = s
             \/ chars "http://localhost/x" = s ++ [LF])
            /\ all_of not_space s.
Proof. apply validator_rejects_white_space. vm_compute. reflexivity. Defined.

Lemma validator_ignores_case_witness :
  is_valid_url "HTTP://EXAMPLE.COM/A" = is_valid_url "http://example.com/a".
Proof.
  apply (proj2 (validator_ignores_case "HTTP://EXAMPLE.COM/A"
                  "http://example.com/a")).
  reflexivity.
Defined.

Lemma wav_output_stays_in_upload_dir_witness :
  exists stem,
    output_wav_path "../x/my.song.mp3" = "temp_uploads/" +:+ stem +:+ ".wav" /\
    resolve Demo.fs0 (output_wav_path "../x/my.song.mp3")
      = Some (cwd Demo.fs0 ++ [UPLOAD_DIR; stem +:+ ".wav"]).
Proof.
  destruct (wav_output_stays_in_upload_dir "../x/my.song.mp3" Demo.fs0)
    as (stem & _ & _ & _ & Hout & Hres).
  exists stem. split; [exact Hout|]. apply Hres; reflexivity.
Defined.

Lemma upload_rejected_when_codec_rejects_empty_witness :
  let req := MkRequest (Some (MkUpload (Some "a.wav") [Byte.x01; Byte.x02]))
               None in
  exists w',
    Demo.handler req Demo.w0 =
      (Ok (MkResponse 200 "" (Some "Could not convert file to audio.")), w')
    /\ lookup_path (fs w') (os_path_join UPLOAD_DIR "a.wav") = None.
Proof.
  intros req. unfold Demo.handler.
  apply (upload_rejected_when_codec_rejects_empty _ _ _ _ _ _ _ _ _ req
           (MkUpload (Some "a.wav") [Byte.x01; Byte.x02]) "a.wav" Demo.w0
           (LibraryError "Decoding failed")); try reflexivity.
  eexists _, _. vm_compute. reflexivity.
Defined.

Lemma url_request_transcribed_witness :
  let req := MkRequest None (Some "http://localhost/x") in
  exists w',
    Demo.handler_wav req Demo.w0 = (Ok (MkResponse 200 "hello" None), w') /\
    lookup_path (fs w') "temp_uploads/vid.wav" = None.
Proof.
  intros req. unfold Demo.handler_wav.
  apply (url_request_transcribed _ _ _ _ _ _ _ _ _ req "http://localhost/x"
           Demo.w0
           (fst (Demo.ydl_extract_wav "http://localhost/x" (fs Demo.w0)))
           "temp_uploads/vid.webm" ["vid.wav"] "temp_uploads/vid.wav"
           [Byte.x01] [Byte.x01] "hello");
    try reflexivity; vm_compute; reflexivity.
Defined.

(** ** The search for the downloaded [.wav] *)

(** X13: the name-matching loop of [download_audio_from_url].  It returns
    nothing exactly when no name of the listing starts with the stem and
    ends in [.wav]; otherwise it returns [UPLOAD_DIR] joined with the first
    such name, whatever follows the stem in that name. *)
Theorem find_wav_first_match (stem : string) (names : list string) :
  (find_wav stem names = None <->
   forall f, In f names -> startswith f stem && endswith f ".wav" = false) /\
  (forall p, find_wav stem names = Some p ->
     exists before f after,
       names = before ++ f :: after /\
       p = os_path_join UPLOAD_DIR f /\
       startswith f stem = true /\ endswith f ".wav" = true /\
       forall g, In g before ->
                 startswith g stem && endswith g ".wav" = false).
Proof.
  induction names as [|f names [IHn IHs]]; simpl.
  - split; [split; [intros _ f []|reflexivity]|discriminate].
  - destruct (startswith f stem && endswith f ".wav") eqn:E.
    + split.
      * split; [discriminate|]. intros H.
        rewrite (H f (or_introl eq_refl)) in E. discriminate.
      * intros p [= <-]. exists [], f, names.
        apply andb_true_iff in E as [E1 E2].
        repeat split; auto. intros g [].
    + split.
      * rewrite IHn. split.
        -- intros H g [<-|Hg]; [exact E|apply H; exact Hg].
        -- intros H g Hg. apply H. right. exact Hg.
      * intros p Hp.
        destruct (IHs p Hp) as (before & f' & after & -> & Hj & H1 & H2 & Hb).
        exists (f :: before), f', after. repeat split; auto.
        intros g [<-|Hg]; [exact E|apply Hb; exact Hg].
Qed.

Lemma find_wav_first_match_witness :
  exists before f after,
    ["notes.txt"; "abcdef.wav"; "abc.wav"] = before ++ f :: after /\
    "temp_uploads/abcdef.wav" = os_path_join UPLOAD_DIR f /\
    startswith f "abc" = true /\ endswith f ".wav" = true /\
    forall g, In g before ->
              startswith g "abc" && endswith g ".wav" = false.
Proof.
  apply (proj2 (find_wav_first_match "abc"
                  ["notes.txt"; "abcdef.wav"; "abc.wav"])).
  reflexivity.
Defined.

Lemma download_never_raises_witness :
  fst (download_audio_from_url (list Byte.byte) Demo.decode Demo.encode_wav
         string Demo.ydl_extract_fail Demo.ydl_prepare_filename
         "http://localhost/x" Demo.w0) = Ok None.
Proof.
  destruct (download_never_raises (list Byte.byte) Demo.decode Demo.encode_wav
              string Demo.ydl_extract_fail Demo.ydl_prepare_filename
              "http://localhost/x" Demo.w0) as (r & w' & H & Hfail).
  rewrite H. simpl.
  destruct (Hfail (LibraryError "ERROR: unable to download video data")
              (fst (Demo.ydl_extract_fail "http://localhost/x" (fs Demo.w0)))
              eq_refl) as [-> _].
  reflexivity.
Defined.
